(** * A2A task orchestration layer: router, task context and task manager

    A shallow embedding of [protocols.py] (classes [A2ATaskRouter],
    [A2ATaskContext], [A2ATaskResult], [A2ATaskManager]) over the data model
    of [models.py], together with the properties of the task registry, the
    dead-letter queue and the streaming queue.

    Conventions of the embedding:
    - Python dictionaries are [gmap]s, lists are [list]s, [Optional[str]] is
      [option string]; Python truthiness of such a value is written out
      ([truthy], [py_or]).  The values of a metadata dictionary are taken to
      be strings.
    - The manager is an explicit state; its methods live in the monad [M],
      in which a raised exception keeps the mutations made before it.
    - A method runs from its start to its end with no other coroutine in
      between.  An awaited coroutine runs in place; a coroutine that is
      built and not awaited never runs ([never_awaited]).
    - [copy(deep=True)] is the identity: values are immutable here.
    - Fields that the methods neither read nor set are left out: the
      metadata of parts and of update events, [acceptedOutputModes] and
      [historyLength] of the send parameters.
    - The wall clock is followed where a method assigns it: the [timestamp]
      of a status tells whether it is the reading taken when the status was
      built or one assigned later ([Timestamp]). *)

From stdpp Require Import gmap strings list pretty.
From Stdlib Require Import ZArith.
From Stdlib.Strings Require Import Ascii Byte.

Local Open Scope string_scope.
Local Open Scope Z_scope.
Local Open Scope list_scope.

(** ** Python values *)

Abbreviation Dict := (gmap string string).

(** [bool(x)] for an [Optional[str]]: [None] and the empty string are falsy. *)
Definition truthy (x : option string) : bool :=
  match x with
  | Some s => negb (String.eqb s "")
  | None => false
  end.

(** [x or d] for an [Optional[str]] [x]. *)
Definition py_or (x : option string) (d : string) : string :=
  match x with
  | Some s => if String.eqb s "" then d else s
  | None => d
  end.

(** [str(x)] for an [Optional[str]], as an f-string renders it. *)
Definition str_opt (x : option string) : string :=
  match x with
  | Some s => s
  | None => "None"
  end.

(** [l[start:]]: a negative start counts from the end and is clamped at the
    first element, a start beyond the end gives the empty list. *)
Definition py_slice_from {A} (start : Z) (l : list A) : list A :=
  let len := Z.of_nat (length l) in
  let start := if start <? 0 then Z.max (start + len) 0 else Z.min start len in
  drop (Z.to_nat start) l.

(** ** Data model ([models.py]) *)

Record A2AFile := {
  file_name : option string;
  file_mimeType : option string;
  file_bytes : option string;      (* base64 encoded *)
  file_uri : option string
}.

Inductive A2APart :=
| A2ATextPart (text : string)
| A2AFilePart (file : A2AFile)
| A2ADataPart (data : Dict).

Record A2AMessage := {
  role : string;
  parts : list A2APart;
  metadata : option Dict
}.

Record A2AArtifact := {
  artifact_name : option string;
  artifact_description : option string;
  artifact_parts : list A2APart;
  artifact_metadata : option Dict;
  artifact_index : Z;
  artifact_append : option bool;
  artifact_lastChunk : option bool
}.

(** The [timestamp] of a status is a reading of the wall clock.  A status
    takes the reading of the moment it is built ([default_factory]), which
    no method reads: that reading is written [when_built].  The one
    assignment to the field, in [_update_task_state], stores the reading
    [now] that [datetime.now()] gives there. *)
Inductive Timestamp :=
| when_built
| assigned_at (now : Z).

Record A2ATaskState := {
  state : string;
  message : option A2AMessage;
  timestamp : Timestamp
}.

Record A2ATask := {
  task_id : string;
  task_sessionId : option string;
  task_status : A2ATaskState;
  task_history : list A2AMessage;
  task_artifacts : list A2AArtifact;
  task_metadata : option Dict
}.

(** Attribute assignment on a task ([task.status = ...] and the like). *)
Definition with_sessionId (v : option string) (t : A2ATask) : A2ATask :=
  {| task_id := task_id t; task_sessionId := v; task_status := task_status t;
     task_history := task_history t; task_artifacts := task_artifacts t;
     task_metadata := task_metadata t |}.

Definition with_status (v : A2ATaskState) (t : A2ATask) : A2ATask :=
  {| task_id := task_id t; task_sessionId := task_sessionId t; task_status := v;
     task_history := task_history t; task_artifacts := task_artifacts t;
     task_metadata := task_metadata t |}.

Definition with_history (v : list A2AMessage) (t : A2ATask) : A2ATask :=
  {| task_id := task_id t; task_sessionId := task_sessionId t;
     task_status := task_status t; task_history := v;
     task_artifacts := task_artifacts t; task_metadata := task_metadata t |}.

Definition with_artifacts (v : list A2AArtifact) (t : A2ATask) : A2ATask :=
  {| task_id := task_id t; task_sessionId := task_sessionId t;
     task_status := task_status t; task_history := task_history t;
     task_artifacts := v; task_metadata := task_metadata t |}.

Record A2ATaskSendParams := {
  param_id : string;
  param_sessionId : option string;
  param_message : A2AMessage;
  param_metadata : option Dict
}.

Record A2ATaskStatusUpdateEventResult := {
  status_event_id : string;
  status_event_status : A2ATaskState;
  status_event_final : bool
}.

Record A2ATaskArtifactUpdateEventResult := {
  artifact_event_id : string;
  artifact_event_artifact : A2AArtifact
}.

(** [A2AError(message, code=...)] of the exceptions module. *)
Record A2AError := {
  error_message : string;
  error_code : Z
}.

(** What travels on the [asyncio.Queue] of a streaming call. *)
Inductive QueueItem :=
| StatusUpdate (ev : A2ATaskStatusUpdateEventResult)
| ArtifactUpdate (ev : A2ATaskArtifactUpdateEventResult)
| QueuedError (err : A2AError).

(** ** Task context and task result *)

(** [A2ATaskContext]: the task snapshot and whether an update queue is
    attached.  The queue is write-only for the context, so a method that puts
    on it returns the items it has put. *)
Record A2ATaskContext := {
  context_task : A2ATask;
  context_has_queue : bool
}.

Record A2ATaskResult := {
  final_status : A2ATaskState;
  result_artifacts : list A2AArtifact
}.

(** [A2ATaskResult.__init__(status, message, artifacts)]. *)
Definition A2ATaskResult_init (status : string) (msg : option A2AMessage)
    (artifacts : option (list A2AArtifact)) : A2ATaskResult :=
  {| final_status := {| state := status; message := msg;
                        timestamp := when_built |};
     result_artifacts := default [] artifacts |}.

(** A handler is user code.  Of one invocation the manager sees the calls
    made on the context, in their order, and how the invocation ends: with a
    result, or with an exception. *)
Inductive ContextCall :=
| CallUpdateStatus (st : string) (message_text : option string) (final : bool)
| CallYieldArtifact (artifact : A2AArtifact).

Inductive Outcome :=
| Return (result : A2ATaskResult)
| Raise (e : string).               (* [str(e)] of the exception *)

(** A callable handed to the router: whether it is an [async def]
    ([asyncio.iscoroutinefunction]), and what awaiting it on a context does. *)
Record Callable := {
  iscoroutinefunction : bool;
  call : A2ATaskContext → list ContextCall * Outcome
}.

(** ** A2ATaskRouter *)

Record A2ATaskRouter := {
  _handlers : gmap string Callable;
  _default_handler : option Callable
}.

Definition A2ATaskRouter_init : A2ATaskRouter :=
  {| _handlers := ∅; _default_handler := None |}.

Definition register_handler (skill_id : string) (handler : Callable)
    (r : A2ATaskRouter) : A2ATaskRouter :=
  if negb (iscoroutinefunction handler) then r
  else {| _handlers := <[skill_id := handler]> (_handlers r);
          _default_handler := _default_handler r |}.

Definition register_default_handler (handler : Callable)
    (r : A2ATaskRouter) : A2ATaskRouter :=
  if negb (iscoroutinefunction handler) then r
  else {| _handlers := _handlers r; _default_handler := Some handler |}.

Definition get_handler (r : A2ATaskRouter) (skill_id : option string)
    : option Callable :=
  let specific :=
    if truthy skill_id then skill_id ≫= (λ s, _handlers r !! s) else None in
  match specific with
  | Some handler => Some handler
  | None =>
      match _default_handler r with
      | Some handler => Some handler
      | None => None
      end
  end.

(** ** A2ATaskContext *)

Inductive FilePartError :=
| ValueError (msg : string)
| NotImplementedError (msg : string).

Section process_file_part.
(** [base64.b64decode] of the Python standard library on a [str]:
    [None] when it raises. *)
Variable b64decode : string → option (list byte).

(** [file] is [file_part.file]; the result is the bytes returned or the
    exception raised. *)
Definition process_file_part (file : A2AFile) : list byte + FilePartError :=
  if truthy (file_bytes file) then
    match b64decode (default "" (file_bytes file)) with
    | Some decoded => inl decoded
    | None =>
        inr (ValueError ("Invalid base64 data for file "
                         +:+ str_opt (file_name file)))
    end
  else if truthy (file_uri file) then
    inr (NotImplementedError
           "Secure URI fetching for file parts is not implemented.")
  else inr (ValueError "File part has neither bytes nor URI.").
End process_file_part.

Definition update_status (context : A2ATaskContext) (st : string)
    (message_text : option string) (final : bool) : list QueueItem :=
  if negb (context_has_queue context) then []
  else
    let status_message :=
      if truthy message_text then
        Some {| role := "agent";
                parts := [A2ATextPart (default "" message_text)];
                metadata := None |}
      else None in
    let status := {| state := st; message := status_message;
                     timestamp := when_built |} in
    [StatusUpdate {| status_event_id := task_id (context_task context);
                     status_event_status := status;
                     status_event_final := final |}].

Definition yield_artifact (context : A2ATaskContext) (artifact : A2AArtifact)
    : list QueueItem :=
  if negb (context_has_queue context) then []
  else [ArtifactUpdate {| artifact_event_id := task_id (context_task context);
                          artifact_event_artifact := artifact |}].

(** The queue items produced by the calls a handler makes on its context. *)
Definition perform (context : A2ATaskContext) (c : ContextCall)
    : list QueueItem :=
  match c with
  | CallUpdateStatus st message_text final =>
      update_status context st message_text final
  | CallYieldArtifact artifact => yield_artifact context artifact
  end.

Definition perform_all (context : A2ATaskContext) (cs : list ContextCall)
    : list QueueItem :=
  concat (map (perform context) cs).

(** ** A2ATaskManager: state *)

(** The reason field of a dead-letter entry: the f-string of the source, kept
    as its format and its argument. *)
Inductive DlqReason :=
| NoSuitableHandlerFound (skill_id : option string)
| HandlerFailed (msg : option A2AMessage)
| HandlerException (e : string)
| StreamHandlerFailed (msg : option A2AMessage).

(** Modelled from the spec: the knowledge base [APIA_KnowledgeBase] of the
    framework module, of which the manager uses [get_metric(category, name,
    default)] and [update_metric(category, name, value)]; "an opaque,
    always-available sink" for counters. *)
Abbreviation KnowledgeBase := (gmap (string * string) Z).

Definition kb_get_metric (kb : KnowledgeBase) (category name : string)
    (dflt : Z) : Z :=
  default dflt (kb !! (category, name)).

Definition kb_update_metric (kb : KnowledgeBase) (category name : string)
    (value : Z) : KnowledgeBase :=
  <[(category, name) := value]> kb.

Record A2ATaskManager := {
  _tasks : gmap string A2ATask;
  _task_locks : gset string;        (* ids that own an [asyncio.Lock] *)
  kb : KnowledgeBase;
  router : A2ATaskRouter;
  a2a_dlq : list (string * string * DlqReason)
}.

Definition A2ATaskManager_init (knowledge_base : KnowledgeBase)
    (task_router : A2ATaskRouter) : A2ATaskManager :=
  {| _tasks := ∅; _task_locks := ∅; kb := knowledge_base;
     router := task_router; a2a_dlq := [] |}.

Definition set_tasks (f : gmap string A2ATask → gmap string A2ATask)
    (m : A2ATaskManager) : A2ATaskManager :=
  {| _tasks := f (_tasks m); _task_locks := _task_locks m; kb := kb m;
     router := router m; a2a_dlq := a2a_dlq m |}.

Definition set_task_locks (f : gset string → gset string)
    (m : A2ATaskManager) : A2ATaskManager :=
  {| _tasks := _tasks m; _task_locks := f (_task_locks m); kb := kb m;
     router := router m; a2a_dlq := a2a_dlq m |}.

Definition set_kb (f : KnowledgeBase → KnowledgeBase)
    (m : A2ATaskManager) : A2ATaskManager :=
  {| _tasks := _tasks m; _task_locks := _task_locks m; kb := f (kb m);
     router := router m; a2a_dlq := a2a_dlq m |}.

Definition set_a2a_dlq
    (f : list (string * string * DlqReason) → list (string * string * DlqReason))
    (m : A2ATaskManager) : A2ATaskManager :=
  {| _tasks := _tasks m; _task_locks := _task_locks m; kb := kb m;
     router := router m; a2a_dlq := f (a2a_dlq m) |}.

(** ** The manager monad: state and exceptions *)

Inductive Exception :=
| RaisedA2AError (err : A2AError)
| KeyError (key : string)
| TypeError.

Inductive result (A : Type) :=
| Ok (a : A)
| Err (e : Exception).
Arguments Ok {A} a.
Arguments Err {A} e.

(** A manager method: it returns or raises, and in both cases leaves the
    manager in a new state. *)
Definition M (A : Type) : Type := A2ATaskManager → A2ATaskManager * result A.

Definition ret {A} (a : A) : M A := λ m, (m, Ok a).

Definition bind {A B} (c : M A) (k : A → M B) : M B :=
  λ m, match c m with
       | (m', Ok a) => k a m'
       | (m', Err e) => (m', Err e)
       end.

Definition raise {A} (e : Exception) : M A := λ m, (m, Err e).

Definition gets {A} (f : A2ATaskManager → A) : M A := λ m, (m, Ok (f m)).

Definition modify (f : A2ATaskManager → A2ATaskManager) : M unit :=
  λ m, (f m, Ok tt).

#[export] Instance M_ret : MRet M := @ret.
#[export] Instance M_bind : MBind M := λ A B k c, bind c k.

(** Calling an [async def] without [await] builds a coroutine object and
    drops it: the body is never run.  Every call of [_update_task_state] in
    the source is of this kind. *)
Definition never_awaited {A} (coroutine : A) : M unit := mret tt.

(** ** A2ATaskManager: helpers *)

(** [_get_task_lock]: the lock of a task id is created on first use.  A call
    runs alone here, so taking and releasing the lock leaves no other trace. *)
Definition _get_task_lock (task_id : string) : M unit :=
  modify (set_task_locks (λ locks, {[task_id]} ∪ locks)).

(** The body of the coroutine [_update_task_state]; [now] is the reading
    that [datetime.now()] gives when the body runs. *)
Definition _update_task_state (task_id : string) (status : option A2ATaskState)
    (history_append : option A2AMessage)
    (artifacts : option (list A2AArtifact)) (replace_artifacts : bool)
    (now : Z) : M unit :=
  tasks ← gets _tasks;
  match tasks !! task_id with
  | None => mret tt                     (* logged; nothing to update *)
  | Some task =>
      let task :=
        match status with
        | Some status =>
            (* [task.status = status],
               then [task.status.timestamp = datetime.now()] *)
            with_status {| state := state status; message := message status;
                           timestamp := assigned_at now |} task
        | None => task
        end in
      let task :=
        match history_append with
        | Some msg => with_history (task_history task ++ [msg]) task
        | None => task
        end in
      let task :=
        if bool_decide (is_Some artifacts) || replace_artifacts
        then with_artifacts (default [] artifacts) task
        else task in
      modify (set_tasks (insert task_id task))
  end.

Definition _add_to_dlq (task_id : option string) (method : string)
    (reason : DlqReason) : M unit :=
  let tid := py_or task_id "unknown" in
  modify (set_a2a_dlq (λ dlq, dlq ++ [(tid, method, reason)]));;
  dlq_count ← gets (λ m, Z.of_nat (length (a2a_dlq m)));
  modify (set_kb (λ kb, kb_update_metric kb "a2a_tasks" "dlq_count" dlq_count)).

(** [await kb.update_metric("a2a_tasks", name,
      await kb.get_metric("a2a_tasks", name, 0) + 1)]. *)
Definition increment_metric (name : string) : M unit :=
  modify (set_kb (λ kb,
    kb_update_metric kb "a2a_tasks" name
      (kb_get_metric kb "a2a_tasks" name 0 + 1))).

(** [params.message.metadata.get("skill_id")
      if params.message and params.message.metadata else None]:
    an empty dictionary is falsy. *)
Definition skill_id_of (params : A2ATaskSendParams) : option string :=
  match metadata (param_message params) with
  | Some md => if bool_decide (md = ∅) then None else md !! "skill_id"
  | None => None
  end.

Definition _get_handler_for_task (params : A2ATaskSendParams) : M Callable :=
  let skill_id := skill_id_of params in
  r ← gets router;
  match get_handler r skill_id with
  | None =>
      _add_to_dlq (Some (param_id params)) "tasks/send"
        (NoSuitableHandlerFound skill_id);;
      raise (RaisedA2AError
        {| error_message := "No suitable agent handler found for skill '"
                            +:+ str_opt skill_id +:+ "'";
           error_code := -32601 |})
  | Some handler => mret handler
  end.

(** The states in which a task takes a further message. *)
Definition accepting_states : list string :=
  ["input-required"; "completed"; "working"; "submitted"; "canceled"].

Definition working : A2ATaskState :=
  {| state := "working"; message := None; timestamp := when_built |}.

(** [self._tasks[task_id].copy(deep=True)]. *)
Definition copy_of_task (task_id : string) : M A2ATask :=
  tasks ← gets _tasks;
  match tasks !! task_id with
  | Some task => mret task
  | None => raise (KeyError task_id)
  end.

(** ** A2ATaskManager: the A2A methods *)

(** The block that [handle_task_send] and [handle_task_send_subscribe] both
    run under the task lock before the handler is called: a stored task takes
    the message when its state allows it, a new task is created otherwise.
    The result is the deep copy of the task, or the state that refuses the
    message (the one method then raises, the other reports on the queue). *)
Definition accept_message (params : A2ATaskSendParams) (session_id : string)
    : M (A2ATask + string) :=
  let task_id := param_id params in
  _get_task_lock task_id;;
  tasks ← gets _tasks;
  match tasks !! task_id with
  | Some task =>
      if negb (bool_decide (state (task_status task) ∈ accepting_states))
      then mret (inr (state (task_status task)))
      else
        let task :=
          with_history (task_history task ++ [param_message params]) task in
        let task := with_sessionId (Some session_id) task in
        let task := with_status working task in
        modify (set_tasks (insert task_id task));;
        (* no [await] in the source *)
        never_awaited
          (_update_task_state task_id (Some (task_status task)) None None
             false);;
        mret (inl task)
  | None =>
      let task :=
        {| task_id := task_id; task_sessionId := Some session_id;
           task_status := working;
           task_history := [param_message params];
           task_artifacts := [];
           task_metadata := param_metadata params |} in
      modify (set_tasks (insert task_id task));;
      increment_metric "received";;
      mret (inl task)
  end.

(** [uuid4] is the value [str(uuid.uuid4())] takes when it is evaluated. *)
Definition handle_task_send (params : A2ATaskSendParams) (uuid4 : string)
    : M A2ATask :=
  let task_id := param_id params in
  let session_id := py_or (param_sessionId params) uuid4 in
  handler ← _get_handler_for_task params;
  accepted ← accept_message params session_id;
  match accepted with
  | inr invalid_state =>
      raise (RaisedA2AError
        {| error_message := "Task " +:+ task_id +:+ " in invalid state "
                            +:+ invalid_state;
           error_code := -32004 |})
  | inl task_copy =>
      (* the handler runs outside the lock, on a context without a queue:
         what it sends with [update_status] and [yield_artifact] is dropped *)
      let context :=
        {| context_task := task_copy; context_has_queue := false |} in
      match snd (call handler context) with
      | Return result =>
          _get_task_lock task_id;;
          (* no [await] in the source *)
          never_awaited
            (_update_task_state task_id (Some (final_status result)) None
               (Some (result_artifacts result)) true);;
          if bool_decide (state (final_status result) = "completed") then
            increment_metric "completed"
          else if bool_decide (state (final_status result) = "failed") then
            increment_metric "failed";;
            _add_to_dlq (Some task_id) "tasks/send"
              (HandlerFailed (message (final_status result)))
          else mret tt
      | Raise e =>
          let error_message :=
            {| role := "agent";
               parts := [A2ATextPart ("Internal error: " +:+ e)];
               metadata := None |} in
          let failed_status :=
            {| state := "failed"; message := Some error_message;
               timestamp := when_built |} in
          _get_task_lock task_id;;
          (* no [await] in the source *)
          never_awaited
            (_update_task_state task_id (Some failed_status) None None true);;
          increment_metric "failed";;
          _add_to_dlq (Some task_id) "tasks/send" (HandlerException e)
      end;;
      _get_task_lock task_id;;
      copy_of_task task_id
  end.

(** [final_status.message.parts[0].text if final_status.message else None]:
    the text, or the [str] of the exception the expression raises. *)
Definition final_message_text (final_status : A2ATaskState)
    : option string + string :=
  match message final_status with
  | None => inl None
  | Some msg =>
      match parts msg with
      | [] => inr "list index out of range"
      | A2ATextPart text :: _ => inl (Some text)
      | A2AFilePart _ :: _ =>
          inr "'A2AFilePart' object has no attribute 'text'"
      | A2ADataPart _ :: _ =>
          inr "'A2ADataPart' object has no attribute 'text'"
      end
  end.

(** The [except Exception as e] clause of [handle_task_send_subscribe]. *)
Definition subscribe_except (context : A2ATaskContext) (task_id e : string)
    (final_artifacts : option (list A2AArtifact)) (queue : list QueueItem)
    : M (A2ATaskState * option (list A2AArtifact) * list QueueItem) :=
  let error_message :=
    {| role := "agent"; parts := [A2ATextPart ("Internal error: " +:+ e)];
       metadata := None |} in
  let final_status := {| state := "failed"; message := Some error_message;
                         timestamp := when_built |} in
  let queue :=
    queue ++ update_status context (state final_status)
               (Some ("Internal error: " +:+ e)) true in
  _add_to_dlq (Some task_id) "tasks/sendSubscribe" (HandlerException e);;
  mret (final_status, final_artifacts, queue).

(** The result is the content of [update_queue] when the method is over, in
    the order of the puts; the subscriber reads the queue from its head. *)
Definition handle_task_send_subscribe (params : A2ATaskSendParams)
    (uuid4 : string) : M (list QueueItem) :=
  let task_id := param_id params in
  let session_id := py_or (param_sessionId params) uuid4 in
  handler ← _get_handler_for_task params;
  accepted ← accept_message params session_id;
  match accepted with
  | inr invalid_state =>
      mret [QueuedError
              {| error_message := "Task in invalid state " +:+ invalid_state;
                 error_code := -32004 |}]
  | inl task_copy =>
      let context :=
        {| context_task := task_copy; context_has_queue := true |} in
      let queue :=
        update_status context "working"
          (Some "Task submitted for processing...") false in
      let '(calls, outcome) := call handler context in
      let queue := queue ++ perform_all context calls in
      '(final_status, final_artifacts, queue) ←
        match outcome with
        | Return result =>
            let final_status := final_status result in
            let final_artifacts := Some (result_artifacts result) in
            match final_message_text final_status with
            | inl message_text =>
                mret (final_status, final_artifacts,
                      queue ++ update_status context (state final_status)
                                 message_text true)
            | inr e => subscribe_except context task_id e final_artifacts queue
            end
        | Raise e => subscribe_except context task_id e None queue
        end;
      (* finally: under [task_lock], the lock obtained above *)
      (* no [await] in the source *)
      never_awaited
        (_update_task_state task_id (Some final_status) None final_artifacts
           true);;
      let metric_category :=
        if bool_decide (state final_status = "completed")
        then "completed" else "failed" in
      (if bool_decide (metric_category = "failed") then
         _add_to_dlq (Some task_id) "tasks/sendSubscribe"
           (StreamHandlerFailed (message final_status))
       else mret tt);;
      increment_metric metric_category;;
      mret queue
  end.

Definition handle_task_get (task_id : string) (history_length : Z)
    : M A2ATask :=
  _get_task_lock task_id;;
  tasks ← gets _tasks;
  match tasks !! task_id with
  | None =>
      raise (RaisedA2AError
        {| error_message := "Task " +:+ task_id +:+ " not found";
           error_code := -32001 |})
  | Some task =>
      let task_copy := task in
      if (0 <=? history_length)
         && negb (bool_decide (task_history task_copy = []))
      then
        mret (with_history
                (py_slice_from (- history_length) (task_history task_copy))
                task_copy)
      else if history_length =? 0 then mret (with_history [] task_copy)
      else mret task_copy
  end.

Definition terminal_states : list string := ["completed"; "failed"; "canceled"].

Definition handle_task_cancel (task_id : string) : M A2ATask :=
  _get_task_lock task_id;;
  tasks ← gets _tasks;
  match tasks !! task_id with
  | None =>
      raise (RaisedA2AError
        {| error_message := "Task " +:+ task_id +:+ " not found";
           error_code := -32001 |})
  | Some task =>
      (if bool_decide (state (task_status task) ∈ terminal_states) then
         mret tt
       else
         let canceled_status := {| state := "canceled"; message := None;
                                   timestamp := when_built |} in
         (* no [await] in the source *)
         never_awaited
           (_update_task_state task_id (Some canceled_status) None None true);;
         increment_metric "canceled");;
      copy_of_task task_id
  end.

(** The JSON-RPC methods that [handle_a2a_request] of [main.py] dispatches to
    the manager, as one transition function on the manager. *)
Inductive Request :=
| TasksSend (params : A2ATaskSendParams) (uuid4 : string)
| TasksSendSubscribe (params : A2ATaskSendParams) (uuid4 : string)
| TasksGet (task_id : string) (history_length : Z)
| TasksCancel (task_id : string).

Definition serve (rq : Request) (m : A2ATaskManager) : A2ATaskManager :=
  match rq with
  | TasksSend params uuid4 => fst (handle_task_send params uuid4 m)
  | TasksSendSubscribe params uuid4 =>
      fst (handle_task_send_subscribe params uuid4 m)
  | TasksGet task_id history_length =>
      fst (handle_task_get task_id history_length m)
  | TasksCancel task_id => fst (handle_task_cancel task_id m)
  end.

Definition serve_all (rqs : list Request) (m : A2ATaskManager)
    : A2ATaskManager :=
  fold_left (λ m rq, serve rq m) rqs m.

(** ** Sample values

    Concrete messages, handlers and managers on which the methods are run. *)

(** A decoder for the standard base64 alphabet with strict padding: a
    function [b64decode] can be instantiated with. *)
Definition b64_value (c : ascii) : option N :=
  let n := N_of_ascii c in
  if ((65 <=? n) && (n <=? 90))%N then Some (n - 65)%N
  else if ((97 <=? n) && (n <=? 122))%N then Some (n - 71)%N
  else if ((48 <=? n) && (n <=? 57))%N then Some (n + 4)%N
  else if (n =? 43)%N then Some 62%N
  else if (n =? 47)%N then Some 63%N
  else None.

Definition b64_byte (n : N) : byte := byte_of_ascii (ascii_of_N n).

Fixpoint b64decode_strict (s : string) : option (list byte) :=
  match s with
  | EmptyString => Some []
  | String a (String b (String c (String d rest))) =>
      match b64_value a, b64_value b with
      | Some va, Some vb =>
          let b1 := b64_byte (va * 4 + vb / 16) in
          if Ascii.eqb c "="%char then
            if Ascii.eqb d "="%char && String.eqb rest "" then Some [b1] else None
          else
            match b64_value c with
            | Some vc =>
                let b2 := b64_byte ((vb mod 16) * 16 + vc / 4) in
                if Ascii.eqb d "="%char then
                  if String.eqb rest "" then Some [b1; b2] else None
                else
                  match b64_value d with
                  | Some vd =>
                      let b3 := b64_byte ((vc mod 4) * 64 + vd) in
                      (λ tail, b1 :: b2 :: b3 :: tail)
                        <$> b64decode_strict rest
                  | None => None
                  end
            | None => None
            end
      | _, _ => None
      end
  | _ => None
  end.

Module Sample.

Definition hello : A2AMessage :=
  {| role := "user"; parts := [A2ATextPart "hello"];
     metadata := Some {["skill_id" := "echo"]} |}.

Definition again : A2AMessage :=
  {| role := "user"; parts := [A2ATextPart "once more"];
     metadata := Some {["skill_id" := "echo"]} |}.

Definition report : A2AArtifact :=
  {| artifact_name := Some "report"; artifact_description := None;
     artifact_parts := [A2ATextPart "done"]; artifact_metadata := None;
     artifact_index := 0; artifact_append := Some false;
     artifact_lastChunk := None |}.

(** [await context.update_status("working", message_text="busy")], then
    [return A2ATaskResult(status="completed", artifacts=[report])]. *)
Definition echo : Callable :=
  {| iscoroutinefunction := true;
     call := λ _, ([CallUpdateStatus "working" (Some "busy") false],
                   Return (A2ATaskResult_init "completed" None
                             (Some [report]))) |}.

(** [raise RuntimeError("boom")]. *)
Definition crash : Callable :=
  {| iscoroutinefunction := true;
     call := λ _, ([], Raise "boom") |}.

(** [return A2ATaskResult(status="failed", message=...)]. *)
Definition decline : Callable :=
  {| iscoroutinefunction := true;
     call := λ _, ([], Return (A2ATaskResult_init "failed"
                     (Some {| role := "agent";
                              parts := [A2ATextPart "Missing input."];
                              metadata := None |})
                     None)) |}.

(** A plain [def], not an [async def]. *)
Definition plain : Callable :=
  {| iscoroutinefunction := false;
     call := λ _, ([], Return (A2ATaskResult_init "completed" None None)) |}.

Definition send_hello : A2ATaskSendParams :=
  {| param_id := "t1"; param_sessionId := None; param_message := hello;
     param_metadata := None |}.

Definition send_again : A2ATaskSendParams :=
  {| param_id := "t1"; param_sessionId := Some "s2"; param_message := again;
     param_metadata := None |}.

Definition send_again_blank_session : A2ATaskSendParams :=
  {| param_id := "t1"; param_sessionId := Some ""; param_message := again;
     param_metadata := None |}.

Definition manager_with (handler : Callable) : A2ATaskManager :=
  A2ATaskManager_init ∅ (register_handler "echo" handler A2ATaskRouter_init).

Definition no_handlers : A2ATaskManager :=
  A2ATaskManager_init ∅ A2ATaskRouter_init.

(** A value of [str(uuid.uuid4())]. *)
Definition uuid4 : string := "123e4567-e89b-42d3-a456-426614174000".

(** The manager after a first [tasks/send] of [send_hello]. *)
Definition after_send (handler : Callable) : A2ATaskManager :=
  serve (TasksSend send_hello uuid4) (manager_with handler).

(** A stored task in a given state, with one message and one artifact. *)
Definition task_in (st : string) : A2ATask :=
  {| task_id := "t1"; task_sessionId := Some "s1";
     task_status := {| state := st; message := None; timestamp := when_built |};
     task_history := [hello]; task_artifacts := [report];
     task_metadata := None |}.

Definition holding (st : string) (handler : Callable) : A2ATaskManager :=
  set_tasks (insert "t1" (task_in st)) (manager_with handler).

(** A stored task with three messages. *)
Definition long_task : A2ATask :=
  {| task_id := "t1"; task_sessionId := Some "s1";
     task_status := {| state := "completed"; message := None;
                       timestamp := when_built |};
     task_history := [hello; again; hello]; task_artifacts := [report];
     task_metadata := None |}.

Definition holding_long : A2ATaskManager :=
  set_tasks (insert "t1" long_task) (manager_with echo).

Definition file_of (b u : option string) : A2AFile :=
  {| file_name := Some "f.bin"; file_mimeType := None;
     file_bytes := b; file_uri := u |}.

End Sample.

(** ** A2ATaskContext: the read accessors

    The properties [task_id] and [metadata] of the class are
    [context_task_id] and [context_metadata] here. *)

Definition context_task_id (context : A2ATaskContext) : string :=
  task_id (context_task context).

Definition session_id (context : A2ATaskContext) : option string :=
  task_sessionId (context_task context).

(** [self.task.history[-1] if self.task.history else None]. *)
Definition incoming_message (context : A2ATaskContext) : option A2AMessage :=
  last (task_history (context_task context)).

Definition context_metadata (context : A2ATaskContext) : option Dict :=
  match incoming_message context with
  | Some msg => metadata msg
  | None => None
  end.

Definition get_text_parts (context : A2ATaskContext) : list string :=
  match incoming_message context with
  | Some msg =>
      omap (λ part, match part with
                    | A2ATextPart text => Some text
                    | _ => None
                    end) (parts msg)
  | None => []
  end.

Definition get_file_parts (context : A2ATaskContext) : list A2AFile :=
  match incoming_message context with
  | Some msg =>
      omap (λ part, match part with
                    | A2AFilePart file => Some file
                    | _ => None
                    end) (parts msg)
  | None => []
  end.

(** ** A2ATaskRouter: sequences of registrations *)

Inductive Registration :=
| RegisterHandler (skill_id : string) (handler : Callable)
| RegisterDefaultHandler (handler : Callable).

Definition register (rg : Registration) (r : A2ATaskRouter) : A2ATaskRouter :=
  match rg with
  | RegisterHandler skill_id handler => register_handler skill_id handler r
  | RegisterDefaultHandler handler => register_default_handler handler r
  end.

Definition register_all (rgs : list Registration) (r : A2ATaskRouter)
    : A2ATaskRouter :=
  fold_left (λ r rg, register rg r) rgs r.

(** ** The life of a manager

    The router is an object that the manager shares with the agents: handlers
    are registered on it while the manager serves requests. *)

Definition set_router (f : A2ATaskRouter → A2ATaskRouter)
    (m : A2ATaskManager) : A2ATaskManager :=
  {| _tasks := _tasks m; _task_locks := _task_locks m; kb := kb m;
     router := f (router m); a2a_dlq := a2a_dlq m |}.

Inductive Step :=
| Serving (rq : Request)
| Registering (rg : Registration).

Definition step (st : Step) (m : A2ATaskManager) : A2ATaskManager :=
  match st with
  | Serving rq => serve rq m
  | Registering rg => set_router (register rg) m
  end.

Definition run (steps : list Step) (m : A2ATaskManager) : A2ATaskManager :=
  fold_left (λ m st, step st m) steps m.

(** The manager as [A2ATaskManager.__init__] builds it, on a fresh router. *)
Definition started (knowledge_base : KnowledgeBase) : A2ATaskManager :=
  A2ATaskManager_init knowledge_base A2ATaskRouter_init.

(** [await kb.get_metric("a2a_tasks", name, 0)]. *)
Definition metric (name : string) (m : A2ATaskManager) : Z :=
  kb_get_metric (kb m) "a2a_tasks" name 0.

(** What every dead-letter entry that the manager files looks like: a task
    id that is not empty, and the method the reason belongs to. *)
Definition well_filed (entry : string * string * DlqReason) : Prop :=
  let '(tid, method, reason) := entry in
  tid ≠ ""
  ∧ match reason with
    | NoSuitableHandlerFound _ | HandlerFailed _ => method = "tasks/send"
    | StreamHandlerFailed _ => method = "tasks/sendSubscribe"
    | HandlerException _ =>
        method = "tasks/send" ∨ method = "tasks/sendSubscribe"
    end.

(** ** The JSON-RPC entry point ([handle_a2a_request] of [main.py]) *)

(** A value of [params], which is a [Dict[str, Any]]: any JSON value, by
    what the entry point and the methods it calls read of it.  Of a float
    they read how it compares with zero ([None] for a NaN) and how it
    prints; of an array or an object, whether it is empty. *)
Record Float := {
  float_str : string;
  float_sign : option comparison
}.

Inductive Scalar :=
| JNull
| JBool (b : bool)
| JInt (n : Z)
| JFloat (x : Float)
| JString (s : string).

Inductive Json :=
| JScalar (v : Scalar)
| JArray (empty : bool)
| JObject (empty : bool).

Coercion JScalar : Scalar >-> Json.

(** [not v]. *)
Definition py_not (v : Json) : bool :=
  match v with
  | JScalar JNull => true
  | JScalar (JBool b) => negb b
  | JScalar (JInt n) => n =? 0
  | JScalar (JFloat x) => bool_decide (float_sign x = Some Eq)
  | JScalar (JString s) => String.eqb s ""
  | JArray empty | JObject empty => empty
  end.

(** Lists and dictionaries cannot be the key of a dictionary. *)
Definition unhashable (v : Json) : bool :=
  match v with
  | JArray _ | JObject _ => true
  | JScalar _ => false
  end.

(** The integer a value is, where Python takes it as one: a boolean is an
    integer. *)
Definition as_int (v : Json) : option Z :=
  match v with
  | JScalar (JInt n) => Some n
  | JScalar (JBool b) => Some (if b then 1 else 0)
  | _ => None
  end.

(** [str(v)], as an f-string renders it. *)
Definition py_str (v : Scalar) : string :=
  match v with
  | JNull => "None"
  | JBool b => if b then "True" else "False"
  | JInt n => pretty n
  | JFloat x => float_str x
  | JString s => s
  end.

(** [handle_task_get(task_id, history)] as the entry point calls it: on the
    values of [params] as they are, which the type hints of the method do
    not check.  On a string and an integer it is the method above.  A key
    that cannot be hashed makes [_get_task_lock] raise.  Another key that is
    no string is the key of no task (the keys of [_tasks] are strings); the
    lock made for it is kept under that key, apart from the locks of the
    task ids, and [_task_locks] does not show it.  With a task at hand,
    [history_length >= 0] raises for a value that does not compare with an
    integer, and the slice raises for a float. *)
Definition handle_task_get_any (task_id history_length : Json) : M A2ATask :=
  match task_id with
  | JScalar (JString task_id) =>
      match as_int history_length with
      | Some history_length => handle_task_get task_id history_length
      | None =>
          _get_task_lock task_id;;
          tasks ← gets _tasks;
          match tasks !! task_id with
          | None =>
              raise (RaisedA2AError
                {| error_message := "Task " +:+ task_id +:+ " not found";
                   error_code := -32001 |})
          | Some task =>
              let task_copy := task in
              match history_length with
              | JScalar (JFloat x) =>
                  let ge_0 :=
                    bool_decide (float_sign x = Some Gt)
                    || bool_decide (float_sign x = Some Eq) in
                  if ge_0 && negb (bool_decide (task_history task_copy = []))
                  then raise TypeError  (* slice indices must be integers *)
                  else if bool_decide (float_sign x = Some Eq)
                  then mret (with_history [] task_copy)
                  else mret task_copy
              | _ => raise TypeError    (* [>=] is not supported *)
              end
          end
      end
  | JScalar task_id =>
      raise (RaisedA2AError
        {| error_message := "Task " +:+ py_str task_id +:+ " not found";
           error_code := -32001 |})
  | JArray _ | JObject _ => raise TypeError
  end.

(** [handle_task_cancel(task_id)] as the entry point calls it. *)
Definition handle_task_cancel_any (task_id : Json) : M A2ATask :=
  match task_id with
  | JScalar (JString task_id) => handle_task_cancel task_id
  | JScalar task_id =>
      raise (RaisedA2AError
        {| error_message := "Task " +:+ py_str task_id +:+ " not found";
           error_code := -32001 |})
  | JArray _ | JObject _ => raise TypeError
  end.

(** [request.params or {}], as the entry point reads it: the value under
    ["id"] and the value under ["historyLength"] ([None] for a missing key),
    and the [A2ATaskSendParams] that pydantic builds from the dictionary
    ([None] when it refuses; the values of the metadata are strings, by the
    convention of this file). *)
Record RpcParams := {
  rpc_task_id : option Json;
  rpc_historyLength : option Json;
  rpc_send_params : option A2ATaskSendParams
}.

Record A2AJsonRpcRequest := {
  rpc_id : string;
  rpc_method : string;
  rpc_params : RpcParams
}.

(** The answers of the entry point.  An [EventSourceResponse] wraps a
    generator that has not run yet: the manager is only called when the
    stream is read. *)
Inductive Response :=
| A2AJsonRpcSuccessResponse (id : string) (result : A2ATask)
| EventSourceResponse (task_params : A2ATaskSendParams)
| JSONResponse (status_code : Z) (id : string) (code : Z) (msg : string).

(** The two [except] clauses of the entry point. *)
Definition respond (request_id : string) (r : result A2ATask) : Response :=
  match r with
  | Ok task => A2AJsonRpcSuccessResponse request_id task
  | Err (RaisedA2AError e) =>
      JSONResponse 400 request_id (error_code e) (error_message e)
  | Err (KeyError _) =>
      JSONResponse 500 request_id (-32603) "Internal server error: KeyError"
  | Err TypeError =>
      JSONResponse 500 request_id (-32603) "Internal server error: TypeError"
  end.

Definition handle_a2a_request (request : A2AJsonRpcRequest) (uuid4 : string)
    (task_manager : A2ATaskManager) : A2ATaskManager * Response :=
  let method := rpc_method request in
  let params := rpc_params request in
  let request_id := rpc_id request in
  let invalid_params :=
    JSONResponse 500 request_id (-32603)
      "Internal server error: ValidationError" in
  if String.eqb method "tasks/send" then
    match rpc_send_params params with
    | None => (task_manager, invalid_params)
    | Some task_params =>
        let '(m, r) := handle_task_send task_params uuid4 task_manager in
        (m, respond request_id r)
    end
  else if String.eqb method "tasks/sendSubscribe" then
    match rpc_send_params params with
    | None => (task_manager, invalid_params)
    | Some task_params => (task_manager, EventSourceResponse task_params)
    end
  else if String.eqb method "tasks/get" then
    (* [params.get("id")] and [params.get("historyLength", 0)] *)
    let task_id := default (JScalar JNull) (rpc_task_id params) in
    let history := default (JScalar (JInt 0)) (rpc_historyLength params) in
    if py_not task_id then
      (task_manager,
       respond request_id
         (Err (RaisedA2AError
                 {| error_message := "Missing 'id' parameter for tasks/get";
                    error_code := -32602 |})))
    else
      let '(m, r) := handle_task_get_any task_id history task_manager in
      (m, respond request_id r)
  else if String.eqb method "tasks/cancel" then
    let task_id := default (JScalar JNull) (rpc_task_id params) in
    if py_not task_id then
      (task_manager,
       respond request_id
         (Err (RaisedA2AError
                 {| error_message := "Missing 'id' parameter for tasks/cancel";
                    error_code := -32602 |})))
    else
      let '(m, r) := handle_task_cancel_any task_id task_manager in
      (m, respond request_id r)
  else
    (task_manager,
     respond request_id
       (Err (RaisedA2AError
               {| error_message := "Method not found: " +:+ method;
                  error_code := -32601 |}))).

(** ** A2AClientManager: addresses and the card cache *)

(** [s.rstrip('/')]. *)
Fixpoint rstrip_slash (s : string) : string :=
  match s with
  | EmptyString => EmptyString
  | String c rest =>
      match rstrip_slash rest with
      | EmptyString =>
          if Ascii.eqb c "/"%char then EmptyString else String c EmptyString
      | stripped => String c stripped
      end
  end.

(** [url.startswith(('http://', 'https://'))]. *)
Definition has_scheme (url : string) : bool :=
  String.prefix "http://" url || String.prefix "https://" url.

(** The cache key of [discover_agent]: the scheme is added first, the
    trailing slashes are removed next. *)
Definition normalized_url (agent_url : string) : string :=
  let agent_url :=
    if negb (has_scheme agent_url) then "http://" +:+ agent_url
    else agent_url in
  rstrip_slash agent_url.

(** The address [send_task], [get_task] and [cancel_task] post to: the
    trailing slashes are removed first, the scheme is added next. *)
Definition target_url (target_agent_url : string) : string :=
  let target_url := rstrip_slash target_agent_url in
  if negb (has_scheme target_url) then "http://" +:+ target_url
  else target_url.

(** The fields of [AgentCard] that the client reads. *)
Record AgentCard := {
  card_name : string;
  card_streaming : bool             (* [card.capabilities.streaming] *)
}.

(** What [http_client.get(card_url)] and the parsing of the card come to. *)
Inductive CardReply :=
| CardFound (card : AgentCard)
| CardRequestError                  (* [httpx.RequestError] *)
| CardInvalid.                      (* any other exception *)

Inductive ClientError :=
| ConnectionError (msg : string)
| APIAException (msg : string)
| ClientA2AError (err : A2AError)
| ValidationError.                  (* the result is not a valid [A2ATask] *)

Definition discover_agent (http_get : string → CardReply) (agent_url : string)
    (remote_agents : gmap string AgentCard)
    : gmap string AgentCard * (AgentCard + ClientError) :=
  let agent_url :=
    if negb (has_scheme agent_url) then "http://" +:+ agent_url
    else agent_url in
  let normalized_url := rstrip_slash agent_url in
  match remote_agents !! normalized_url with
  | Some card => (remote_agents, inl card)
  | None =>
      let card_url := normalized_url +:+ "/agent-card" in
      match http_get card_url with
      | CardFound card => (<[normalized_url := card]> remote_agents, inl card)
      | CardRequestError =>
          (remote_agents,
           inr (ConnectionError
                  ("Cannot connect to A2A agent at " +:+ agent_url)))
      | CardInvalid =>
          (remote_agents,
           inr (APIAException
                  ("Failed to discover/parse agent card at " +:+ agent_url)))
      end
  end.

(** ** A2AClientManager: requests and event streams *)

(** The body of an HTTP answer, as [_send_json_rpc] reads it.  A result is
    the [A2ATask] that the caller builds from it, [None] when it is not a
    valid task. *)
Inductive JsonRpcBody :=
| BodyError (err : A2AError)            (* has the key "error" *)
| BodyResult (task : option A2ATask)    (* has the key "result" *)
| BodyNeither
| BodyNotJson.

Inductive HttpReply :=
| HttpRequestError                      (* [httpx.RequestError] *)
| HttpResponse (status_code : Z) (body : JsonRpcBody).

(** One line of an event stream, as the loop of [send_task] reads it. *)
Inductive SseLine :=
| SseSkipped       (* no "data:" prefix, no data, no JSON, or JSON that is
                      neither an error nor an update that can be read *)
| SseError (err : A2AError)
| SseStatus (ev : A2ATaskStatusUpdateEventResult)
| SseArtifact (ev : A2ATaskArtifactUpdateEventResult)
| SseFault (e : string).                (* another exception on that line *)

(** How a stream ends: it closes after its last line, or reading it fails
    (a status code that [raise_for_status] refuses is a failure with no
    line). *)
Inductive StreamEnd :=
| StreamClosed
| StreamRequestError                    (* [httpx.RequestError] *)
| StreamFailure.                        (* any other exception *)

(** What [stream_callback] is called with.  The callback is taken to
    return: an exception of the callback itself is not modelled. *)
Inductive CallbackArg :=
| GotStatus (ev : A2ATaskStatusUpdateEventResult)
| GotArtifact (ev : A2ATaskArtifactUpdateEventResult)
| GotA2AError (err : A2AError)
| GotException (e : string).

Record StreamState := {
  last_known_task_state : option A2ATaskState;
  stream_exc : option (A2AError + string);
  delivered : list CallbackArg
}.

Definition stream_start : StreamState :=
  {| last_known_task_state := None; stream_exc := None; delivered := [] |}.

(** The loop over the lines of the stream; the boolean tells whether the
    loop was left by [break]. *)
Fixpoint consume (lines : list SseLine) (st : StreamState)
    : StreamState * bool :=
  match lines with
  | [] => (st, false)
  | line :: lines =>
      match line with
      | SseSkipped => consume lines st
      | SseError err =>
          ({| last_known_task_state := last_known_task_state st;
              stream_exc := Some (inl err);
              delivered := delivered st ++ [GotA2AError err] |}, true)
      | SseStatus ev =>
          let st :=
            {| last_known_task_state := Some (status_event_status ev);
               stream_exc := stream_exc st;
               delivered := delivered st ++ [GotStatus ev] |} in
          if status_event_final ev then (st, true) else consume lines st
      | SseArtifact ev =>
          consume lines
            {| last_known_task_state := last_known_task_state st;
               stream_exc := stream_exc st;
               delivered := delivered st ++ [GotArtifact ev] |}
      | SseFault e =>
          ({| last_known_task_state := last_known_task_state st;
              stream_exc := Some (inr e);
              delivered := delivered st ++ [GotException e] |}, true)
      end
  end.

(** Whether a line makes the loop [break]. *)
Definition breaks (line : SseLine) : bool :=
  match line with
  | SseError _ | SseFault _ => true
  | SseStatus ev => status_event_final ev
  | SseSkipped | SseArtifact _ => false
  end.

(** What the callback receives for a line. *)
Definition delivery (line : SseLine) : option CallbackArg :=
  match line with
  | SseSkipped => None
  | SseError err => Some (GotA2AError err)
  | SseStatus ev => Some (GotStatus ev)
  | SseArtifact ev => Some (GotArtifact ev)
  | SseFault e => Some (GotException e)
  end.

Record Network := {
  net_get_card : string → CardReply;
  (* the answer to a POST of a method for a task id at an address *)
  net_post : string → string → string → HttpReply;
  (* the event stream that a POST at an address opens *)
  net_stream : string → list SseLine * StreamEnd
}.

Section A2AClientManager.
(** [response.raise_for_status()] of httpx raises for the status code. *)
Variable raises_for_status : Z → bool.
Variable net : Network.

Definition _send_json_rpc (target_url method task_id : string)
    : option A2ATask + ClientError :=
  let generic :=
    APIAException ("Generic error during A2A request to " +:+ target_url) in
  match net_post net target_url method task_id with
  | HttpRequestError =>
      inr (ConnectionError
             ("Network error during A2A request to " +:+ target_url))
  | HttpResponse status_code body =>
      if raises_for_status status_code then inr generic
      else
        match body with
        | BodyNotJson => inr generic
        | BodyError err => inr (ClientA2AError err)
        | BodyResult result => inl result
        | BodyNeither => inr generic
        end
  end.

(** [A2ATask(...)] on the result of [_send_json_rpc]. *)
Definition task_of_reply (r : option A2ATask + ClientError)
    : A2ATask + ClientError :=
  match r with
  | inl (Some task) => inl task
  | inl None => inr ValidationError
  | inr e => inr e
  end.

Definition get_task (target_agent_url task_id : string)
    : A2ATask + ClientError :=
  task_of_reply (_send_json_rpc (target_url target_agent_url) "tasks/get"
                   task_id).

Definition cancel_task (target_agent_url task_id : string)
    : A2ATask + ClientError :=
  task_of_reply (_send_json_rpc (target_url target_agent_url) "tasks/cancel"
                   task_id).

(** [has_callback] tells whether a [stream_callback] is given; the result is
    the cache of cards, the task returned or the exception raised, and what
    the callback has received.

    The client is built with the response hook [_log_response], which reads
    the body of every response to its end ([await response.aread()]) before
    the response is handed over.  A stream is therefore read whole before
    its first line is looked at: when it fails, on the way or through its
    status code, the exception comes out of [http_client.stream] and the
    callback has received nothing; when it closes, the loop runs over all
    of its lines. *)
Definition send_task (target_agent_url : string) (params : A2ATaskSendParams)
    (has_callback : bool) (remote_agents : gmap string AgentCard)
    : gmap string AgentCard * (A2ATask + ClientError) * list CallbackArg :=
  let target_url := target_url target_agent_url in
  match discover_agent (net_get_card net) target_url remote_agents with
  | (remote_agents, inr e) => (remote_agents, inr e, [])
  | (remote_agents, inl card) =>
      if negb (has_callback && card_streaming card) then
        (remote_agents,
         task_of_reply (_send_json_rpc target_url "tasks/send"
                          (param_id params)),
         [])
      else
        let '(lines, ending) := net_stream net target_url in
        match ending with
        | StreamRequestError =>
            (remote_agents,
             inr (ConnectionError
                    ("Network error during A2A stream request to "
                     +:+ target_url)),
             [])
        | StreamFailure =>
            (remote_agents,
             inr (APIAException
                    ("Error during A2A stream request to " +:+ target_url)),
             [])
        | StreamClosed =>
            let '(st, _) := consume lines stream_start in
            let outcome :=
              match stream_exc st, last_known_task_state st with
              | Some _, _ => inr (APIAException "A2A stream ended with error")
              | None, Some status =>
                  inl {| task_id := param_id params;
                         task_sessionId := param_sessionId params;
                         task_status := status;
                         task_history := [];
                         task_artifacts := [];
                         task_metadata := None |}
              | None, None =>
                  match get_task target_agent_url (param_id params) with
                  | inl task => inl task
                  | inr _ =>
                      inr (APIAException
                             ("Stream incomplete and failed to fetch final "
                              +:+ "status for task " +:+ param_id params))
                  end
              end in
            (remote_agents, outcome, delivered st)
        end
  end.
End A2AClientManager.

(** Whether the loop of [send_task] stops once the callback has received
    this. *)
Definition stops (arg : CallbackArg) : bool :=
  match arg with
  | GotStatus ev => status_event_final ev
  | GotArtifact _ => false
  | GotA2AError _ | GotException _ => true
  end.

(** The status that a line of the stream carries. *)
Definition status_of (line : SseLine) : option A2ATaskState :=
  match line with
  | SseStatus ev => Some (status_event_status ev)
  | _ => None
  end.

Module ClientSample.

Definition remote : AgentCard :=
  {| card_name := "remote"; card_streaming := true |}.

Definition progress : A2ATaskStatusUpdateEventResult :=
  {| status_event_id := "t1";
     status_event_status := {| state := "working"; message := None;
                               timestamp := when_built |};
     status_event_final := false |}.

Definition finished : A2ATaskStatusUpdateEventResult :=
  {| status_event_id := "t1";
     status_event_status := {| state := "completed"; message := None;
                               timestamp := when_built |};
     status_event_final := true |}.

Definition piece : A2ATaskArtifactUpdateEventResult :=
  {| artifact_event_id := "t1"; artifact_event_artifact := Sample.report |}.

(** httpx raises for the status codes 4xx and 5xx. *)
Definition raises_for_status (status_code : Z) : bool := 400 <=? status_code.

Definition network (lines : list SseLine) (ending : StreamEnd)
    (reply : HttpReply) : Network :=
  {| net_get_card := λ _, CardFound remote;
     net_post := λ _ _ _, reply;
     net_stream := λ _, (lines, ending) |}.

End ClientSample.

(** * Properties *)

Ltac run_manager :=
  unfold mbind, M_bind, bind, mret, M_ret, ret, gets, modify, raise,
    never_awaited.

(** ** Python values and the context *)

Example py_slice_from_examples :
  py_slice_from (-2) [1; 2; 3] = [2; 3]
  ∧ py_slice_from (-5) [1; 2; 3] = [1; 2; 3]
  ∧ py_slice_from (- 0) [1; 2; 3] = [1; 2; 3]
  ∧ py_slice_from 1 [1; 2; 3] = [2; 3].
Proof. by split_and!. Qed.

Example b64decode_strict_examples :
  b64decode_strict "aGk=" = Some ["h"; "i"]%byte
  ∧ b64decode_strict "aGkh" = Some ["h"; "i"; "!"]%byte
  ∧ b64decode_strict "" = Some []
  ∧ b64decode_strict "aGk" = None
  ∧ b64decode_strict "a?k=" = None.
Proof. by split_and!. Qed.

(** Without a queue the calls of a handler on its context leave no trace. *)
Lemma perform_all_without_queue context calls :
  context_has_queue context = false → perform_all context calls = [].
Proof.
  intros Hq. unfold perform_all.
  induction calls as [| c calls IH]; [done |].
  simpl. rewrite IH, app_nil_r.
  destruct c; simpl; unfold update_status, yield_artifact; by rewrite Hq.
Qed.

(** ** The router *)

Lemma truthy_Some (s : string) : truthy (Some s) = true ↔ s ≠ "".
Proof.
  unfold truthy. destruct (String.eqb_spec s ""); simpl; split; congruence.
Qed.

Lemma py_or_truthy (x : option string) (s d : string) :
  x = Some s → s ≠ "" → py_or x d = s.
Proof.
  intros -> Hs. unfold py_or.
  destruct (String.eqb_spec s ""); congruence.
Qed.

Lemma py_or_falsy (x : option string) (d : string) :
  x = None ∨ x = Some "" → py_or x d = d.
Proof. intros [-> | ->]; reflexivity. Qed.

Lemma register_handler_not_async skill_id handler r :
  iscoroutinefunction handler = false → register_handler skill_id handler r = r.
Proof. intros H. unfold register_handler. by rewrite H. Qed.

Lemma register_handler_async skill_id handler r :
  iscoroutinefunction handler = true →
  _handlers (register_handler skill_id handler r) !! skill_id = Some handler
  ∧ (∀ other, other ≠ skill_id →
       _handlers (register_handler skill_id handler r) !! other
       = _handlers r !! other)
  ∧ _default_handler (register_handler skill_id handler r)
    = _default_handler r.
Proof.
  intros H. unfold register_handler. rewrite H. simpl.
  split; [apply lookup_insert_eq |].
  split; [| reflexivity].
  intros other Hne. by apply lookup_insert_ne.
Qed.

Lemma get_handler_specific r s handler :
  s ≠ "" → _handlers r !! s = Some handler →
  get_handler r (Some s) = Some handler.
Proof.
  intros Hs Hl. unfold get_handler.
  apply truthy_Some in Hs. rewrite Hs. simpl. by rewrite Hl.
Qed.

Lemma get_handler_default r skill_id :
  (∀ s, skill_id = Some s → s = "" ∨ _handlers r !! s = None) →
  get_handler r skill_id = _default_handler r.
Proof.
  intros H. unfold get_handler.
  destruct skill_id as [s |]; simpl.
  - destruct (H s eq_refl) as [-> | Hl]; simpl.
    + by destruct (_default_handler r).
    + destruct (negb (String.eqb s "")); rewrite ?Hl;
        by destruct (_default_handler r).
  - by destruct (_default_handler r).
Qed.

Lemma get_handler_none r skill_id :
  _default_handler r = None →
  (∀ s, skill_id = Some s → _handlers r !! s = None) →
  get_handler r skill_id = None.
Proof.
  intros Hd Hs. rewrite get_handler_default; [done |].
  intros s ->. right. by apply Hs.
Qed.

(** ** Running the helpers of the manager *)

Lemma _get_handler_for_task_found params m handler :
  get_handler (router m) (skill_id_of params) = Some handler →
  _get_handler_for_task params m = (m, Ok handler).
Proof. intros H. unfold _get_handler_for_task. run_manager. by rewrite H. Qed.

Lemma _add_to_dlq_run task_id method reason m :
  _add_to_dlq task_id method reason m
  = (set_kb (λ kb, kb_update_metric kb "a2a_tasks" "dlq_count"
                     (Z.of_nat (length (a2a_dlq m ++
                        [(py_or task_id "unknown", method, reason)]))))
       (set_a2a_dlq (λ dlq, dlq ++ [(py_or task_id "unknown", method, reason)])
          m),
     Ok tt).
Proof. reflexivity. Qed.

Lemma _get_handler_for_task_missing params m :
  get_handler (router m) (skill_id_of params) = None →
  ∃ err,
    _get_handler_for_task params m
    = (fst (_add_to_dlq (Some (param_id params)) "tasks/send"
              (NoSuitableHandlerFound (skill_id_of params)) m),
       Err (RaisedA2AError err))
    ∧ error_code err = -32601.
Proof.
  intros H. unfold _get_handler_for_task. run_manager. rewrite H.
  eexists. split; reflexivity.
Qed.

(** What [accept_message] does, case by case. *)
Lemma accept_message_new params session_id m :
  _tasks m !! param_id params = None →
  ∃ m',
    accept_message params session_id m
    = (m', Ok (inl {| task_id := param_id params;
                      task_sessionId := Some session_id;
                      task_status := working;
                      task_history := [param_message params];
                      task_artifacts := [];
                      task_metadata := param_metadata params |}))
    ∧ _tasks m' = <[param_id params :=
                     {| task_id := param_id params;
                        task_sessionId := Some session_id;
                        task_status := working;
                        task_history := [param_message params];
                        task_artifacts := [];
                        task_metadata := param_metadata params |}]> (_tasks m)
    ∧ a2a_dlq m' = a2a_dlq m
    ∧ router m' = router m.
Proof.
  intros H. unfold accept_message, _get_task_lock, increment_metric.
  run_manager. simpl. rewrite H. eexists. repeat split.
Qed.

Lemma accept_message_stored params session_id m task :
  _tasks m !! param_id params = Some task →
  state (task_status task) ∈ accepting_states →
  ∃ m',
    accept_message params session_id m
    = (m', Ok (inl (with_status working
                      (with_sessionId (Some session_id)
                         (with_history
                            (task_history task ++ [param_message params])
                            task)))))
    ∧ _tasks m' = <[param_id params :=
                     with_status working
                       (with_sessionId (Some session_id)
                          (with_history
                             (task_history task ++ [param_message params])
                             task))]> (_tasks m)
    ∧ a2a_dlq m' = a2a_dlq m
    ∧ router m' = router m.
Proof.
  intros H Hst. unfold accept_message, _get_task_lock.
  run_manager. simpl. rewrite H. rewrite bool_decide_eq_true_2 by done.
  simpl. eexists. repeat split.
Qed.

Lemma accept_message_refused params session_id m task :
  _tasks m !! param_id params = Some task →
  state (task_status task) ∉ accepting_states →
  ∃ m',
    accept_message params session_id m
    = (m', Ok (inr (state (task_status task))))
    ∧ _tasks m' = _tasks m
    ∧ a2a_dlq m' = a2a_dlq m
    ∧ kb m' = kb m
    ∧ router m' = router m.
Proof.
  intros H Hst. unfold accept_message, _get_task_lock.
  run_manager. simpl. rewrite H. rewrite bool_decide_eq_false_2 by done.
  simpl. eexists. repeat split.
Qed.

(** What [handle_task_send] does once the message is accepted: the task that
    [accept_message] stored is still the stored task when the call returns,
    and it is the task returned. *)
Lemma handle_task_send_accepted params uuid4 m handler m1 t1 :
  get_handler (router m) (skill_id_of params) = Some handler →
  accept_message params (py_or (param_sessionId params) uuid4) m
  = (m1, Ok (inl t1)) →
  _tasks m1 !! param_id params = Some t1 →
  ∃ m2,
    handle_task_send params uuid4 m = (m2, Ok t1)
    ∧ _tasks m2 = _tasks m1
    ∧ router m2 = router m1
    ∧ a2a_dlq m2
      = a2a_dlq m1 ++
        match snd (call handler {| context_task := t1;
                                   context_has_queue := false |}) with
        | Return result =>
            if bool_decide (state (final_status result) = "failed")
            then [(py_or (Some (param_id params)) "unknown", "tasks/send",
                   HandlerFailed (message (final_status result)))]
            else []
        | Raise e =>
            [(py_or (Some (param_id params)) "unknown", "tasks/send",
              HandlerException e)]
        end.
Proof.
  intros Hroute Hacc Hstored. unfold handle_task_send. run_manager.
  rewrite (_get_handler_for_task_found _ _ _ Hroute), Hacc.
  destruct (snd (call handler _)) as [result | e]; simpl.
  - unfold copy_of_task, _get_task_lock, increment_metric. run_manager.
    destruct (bool_decide (state (final_status result) = "completed")) eqn:Hc.
    + apply bool_decide_eq_true_1 in Hc.
      rewrite bool_decide_eq_false_2 by (rewrite Hc; discriminate).
      simpl. rewrite Hstored. eexists. repeat split.
      by rewrite app_nil_r.
    + destruct (bool_decide (state (final_status result) = "failed"));
        simpl; rewrite Hstored; eexists; repeat split.
      by rewrite app_nil_r.
  - unfold copy_of_task, _get_task_lock, increment_metric. run_manager.
    simpl. rewrite Hstored. eexists. repeat split.
Qed.

(** The same for [handle_task_send_subscribe], with the queue it fills. *)
Lemma handle_task_send_subscribe_accepted params uuid4 m handler m1 t1 :
  get_handler (router m) (skill_id_of params) = Some handler →
  accept_message params (py_or (param_sessionId params) uuid4) m
  = (m1, Ok (inl t1)) →
  let context := {| context_task := t1; context_has_queue := true |} in
  let tid := py_or (Some (param_id params)) "unknown" in
  let failed e :=
    (update_status context "failed" (Some ("Internal error: " +:+ e)) true,
     [(tid, "tasks/sendSubscribe", HandlerException e);
      (tid, "tasks/sendSubscribe",
       StreamHandlerFailed
         (Some {| role := "agent";
                  parts := [A2ATextPart ("Internal error: " +:+ e)];
                  metadata := None |}))]) in
  let closing :=
    match snd (call handler context) with
    | Return result =>
        match final_message_text (final_status result) with
        | inl message_text =>
            (update_status context (state (final_status result))
               message_text true,
             if bool_decide (state (final_status result) = "completed")
             then []
             else [(tid, "tasks/sendSubscribe",
                    StreamHandlerFailed (message (final_status result)))])
        | inr e => failed e
        end
    | Raise e => failed e
    end in
  ∃ m2,
    handle_task_send_subscribe params uuid4 m
    = (m2, Ok (update_status context "working"
                 (Some "Task submitted for processing...") false
               ++ perform_all context (fst (call handler context))
               ++ fst closing))
    ∧ _tasks m2 = _tasks m1
    ∧ router m2 = router m1
    ∧ a2a_dlq m2 = a2a_dlq m1 ++ snd closing.
Proof.
  intros Hroute Hacc context tid failed closing.
  unfold handle_task_send_subscribe. run_manager.
  rewrite (_get_handler_for_task_found _ _ _ Hroute), Hacc.
  subst closing failed. fold context.
  destruct (call handler context) as [calls [result | e]]; simpl.
  - destruct (final_message_text (final_status result)) as [text | e]; simpl.
    + unfold increment_metric. run_manager.
      destruct (bool_decide (state (final_status result) = "completed"));
        simpl; eexists; split_and!; try reflexivity; simpl;
        by rewrite ?app_nil_r.
    + unfold subscribe_except, increment_metric. run_manager. simpl.
      eexists. split_and!; try reflexivity. simpl. by rewrite <- app_assoc.
  - unfold subscribe_except, increment_metric. run_manager. simpl.
    eexists. split_and!; try reflexivity. simpl. by rewrite <- app_assoc.
Qed.

(** ** Claims on the router (C9) *)

(** C9, as stated, fails for the empty skill id: a handler registered under
    [""] is a specific handler whose skill id matches the request, yet
    [get_handler] does not return it ([skill_id and ...] is false for [""]). *)
Lemma get_handler_empty_skill_counterexample :
  let r := register_handler "" Sample.echo A2ATaskRouter_init in
  _handlers r !! "" = Some Sample.echo
  ∧ get_handler r (Some "") ≠ Some Sample.echo.
Proof. split; [reflexivity | vm_compute; discriminate]. Qed.

(** C9 (amended): registering a handler that is not an asynchronous callable
    leaves the router unchanged, registering an asynchronous one stores it
    under the skill id (other skills and the default untouched); [get_handler]
    returns the specific handler when the skill id is non-empty and matches
    one, and otherwise (no skill id, the empty one, or no match) the default
    handler when there is one, else none. *)
Theorem router_register_and_resolve
    (r : A2ATaskRouter) (skill_id : string) (handler : Callable)
    (query : option string) :
  (iscoroutinefunction handler = false →
     register_handler skill_id handler r = r)
  ∧ (iscoroutinefunction handler = true →
       _handlers (register_handler skill_id handler r)
       = <[skill_id := handler]> (_handlers r)
       ∧ _default_handler (register_handler skill_id handler r)
         = _default_handler r)
  ∧ (∀ s h, query = Some s → s ≠ "" → _handlers r !! s = Some h →
       get_handler r query = Some h)
  ∧ ((∀ s, query = Some s → s = "" ∨ _handlers r !! s = None) →
       get_handler r query = _default_handler r).
Proof.
  split_and!.
  - apply register_handler_not_async.
  - intros H. unfold register_handler. by rewrite H.
  - intros s h -> Hs Hl. by apply get_handler_specific.
  - apply get_handler_default.
Qed.

Lemma router_register_and_resolve_witness :
  register_handler "echo" Sample.plain A2ATaskRouter_init = A2ATaskRouter_init
  ∧ _handlers (register_handler "echo" Sample.echo A2ATaskRouter_init)
    = <[ "echo" := Sample.echo ]> ∅
  ∧ get_handler (register_handler "echo" Sample.echo A2ATaskRouter_init)
      (Some "echo") = Some Sample.echo
  ∧ get_handler (register_handler "echo" Sample.echo A2ATaskRouter_init)
      (Some "other") = None.
Proof.
  split_and!.
  - apply (proj1 (router_register_and_resolve
                    A2ATaskRouter_init "echo" Sample.plain None)).
    reflexivity.
  - apply (proj1 (proj2 (router_register_and_resolve
                    A2ATaskRouter_init "echo" Sample.echo None))).
    reflexivity.
  - apply (proj1 (proj2 (proj2 (router_register_and_resolve
                    (register_handler "echo" Sample.echo A2ATaskRouter_init)
                    "echo" Sample.echo (Some "echo"))))
             "echo" Sample.echo);
      [reflexivity | discriminate | reflexivity].
  - apply (proj2 (proj2 (proj2 (router_register_and_resolve
                    (register_handler "echo" Sample.echo A2ATaskRouter_init)
                    "echo" Sample.echo (Some "other"))))).
    intros s [= <-]. right. reflexivity.
Defined.

(** ** Routing failures (C6) *)

(** What [handle_task_send] does when no handler is found. *)
Lemma handle_task_send_not_routed params uuid4 m :
  get_handler (router m) (skill_id_of params) = None →
  ∃ err,
    handle_task_send params uuid4 m
    = (fst (_add_to_dlq (Some (param_id params)) "tasks/send"
              (NoSuitableHandlerFound (skill_id_of params)) m),
       Err (RaisedA2AError err))
    ∧ error_code err = -32601.
Proof.
  intros Hnone.
  destruct (_get_handler_for_task_missing params m Hnone) as (err & Hrun & Hcode).
  exists err. unfold handle_task_send. run_manager. by rewrite Hrun.
Qed.

(** C6: a [tasks/send] whose skill id resolves to no handler appends exactly
    one entry to the dead-letter queue and raises an [A2AError] with code
    -32601; the task registry is left as it was (no task is created or
    modified), and no task lock is created either. *)
Theorem handle_task_send_unroutable
    (m : A2ATaskManager) (params : A2ATaskSendParams) (uuid4 : string) :
  get_handler (router m) (skill_id_of params) = None →
  ∃ err,
    snd (handle_task_send params uuid4 m) = Err (RaisedA2AError err)
    ∧ error_code err = -32601
    ∧ a2a_dlq (fst (handle_task_send params uuid4 m))
      = a2a_dlq m ++ [(py_or (Some (param_id params)) "unknown", "tasks/send",
                       NoSuitableHandlerFound (skill_id_of params))]
    ∧ _tasks (fst (handle_task_send params uuid4 m)) = _tasks m
    ∧ _task_locks (fst (handle_task_send params uuid4 m)) = _task_locks m.
Proof.
  intros Hnone.
  destruct (handle_task_send_not_routed params uuid4 m Hnone)
    as (err & -> & Hcode).
  exists err. rewrite _add_to_dlq_run. simpl. by split_and!.
Qed.

Lemma handle_task_send_unroutable_witness :
  ∃ err,
    snd (handle_task_send Sample.send_hello Sample.uuid4 Sample.no_handlers)
    = Err (RaisedA2AError err)
    ∧ error_code err = -32601
    ∧ a2a_dlq (fst (handle_task_send Sample.send_hello Sample.uuid4
                      Sample.no_handlers))
      = [("t1", "tasks/send", NoSuitableHandlerFound (Some "echo"))]
    ∧ _tasks (fst (handle_task_send Sample.send_hello Sample.uuid4
                     Sample.no_handlers)) = ∅
    ∧ _task_locks (fst (handle_task_send Sample.send_hello Sample.uuid4
                          Sample.no_handlers)) = ∅.
Proof.
  apply (handle_task_send_unroutable Sample.no_handlers Sample.send_hello
           Sample.uuid4).
  reflexivity.
Defined.

(** The streaming method shares the routing step. *)
Lemma handle_task_send_subscribe_unroutable
    (m : A2ATaskManager) (params : A2ATaskSendParams) (uuid4 : string) :
  get_handler (router m) (skill_id_of params) = None →
  ∃ err entry,
    snd (handle_task_send_subscribe params uuid4 m) = Err (RaisedA2AError err)
    ∧ error_code err = -32601
    ∧ a2a_dlq (fst (handle_task_send_subscribe params uuid4 m))
      = a2a_dlq m ++ [entry]
    ∧ _tasks (fst (handle_task_send_subscribe params uuid4 m)) = _tasks m.
Proof.
  intros Hnone.
  destruct (_get_handler_for_task_missing params m Hnone) as (err & Hrun & Hcode).
  exists err. eexists.
  unfold handle_task_send_subscribe. run_manager. rewrite Hrun.
  rewrite _add_to_dlq_run. simpl. by split_and!.
Qed.

(** ** Re-entry of a stored task (C7) *)

Lemma handle_task_send_refused params uuid4 m handler task :
  get_handler (router m) (skill_id_of params) = Some handler →
  _tasks m !! param_id params = Some task →
  state (task_status task) ∉ accepting_states →
  ∃ err,
    snd (handle_task_send params uuid4 m) = Err (RaisedA2AError err)
    ∧ error_code err = -32004
    ∧ _tasks (fst (handle_task_send params uuid4 m)) = _tasks m
    ∧ a2a_dlq (fst (handle_task_send params uuid4 m)) = a2a_dlq m.
Proof.
  intros Hroute Hstored Hst.
  destruct (accept_message_refused params
              (py_or (param_sessionId params) uuid4) m task Hstored Hst)
    as (m' & Hacc & Htasks & Hdlq & _).
  unfold handle_task_send. run_manager.
  rewrite (_get_handler_for_task_found _ _ _ Hroute), Hacc. simpl.
  eexists. by split_and!.
Qed.

Lemma handle_task_send_subscribe_refused params uuid4 m handler task :
  get_handler (router m) (skill_id_of params) = Some handler →
  _tasks m !! param_id params = Some task →
  state (task_status task) ∉ accepting_states →
  ∃ err,
    snd (handle_task_send_subscribe params uuid4 m) = Ok [QueuedError err]
    ∧ error_code err = -32004
    ∧ _tasks (fst (handle_task_send_subscribe params uuid4 m)) = _tasks m
    ∧ a2a_dlq (fst (handle_task_send_subscribe params uuid4 m)) = a2a_dlq m.
Proof.
  intros Hroute Hstored Hst.
  destruct (accept_message_refused params
              (py_or (param_sessionId params) uuid4) m task Hstored Hst)
    as (m' & Hacc & Htasks & Hdlq & _).
  unfold handle_task_send_subscribe. run_manager.
  rewrite (_get_handler_for_task_found _ _ _ Hroute), Hacc. simpl.
  eexists. by split_and!.
Qed.

(** The task that a re-entered send stores, and that is still stored when
    either send method is over. *)
Lemma resend_stored params uuid4 m handler task :
  get_handler (router m) (skill_id_of params) = Some handler →
  _tasks m !! param_id params = Some task →
  state (task_status task) ∈ accepting_states →
  let t1 :=
    with_status working
      (with_sessionId (Some (py_or (param_sessionId params) uuid4))
         (with_history (task_history task ++ [param_message params]) task)) in
  (∃ m1, accept_message params (py_or (param_sessionId params) uuid4) m
         = (m1, Ok (inl t1))
         ∧ _tasks m1 !! param_id params = Some t1)
  ∧ snd (handle_task_send params uuid4 m) = Ok t1
  ∧ _tasks (fst (handle_task_send params uuid4 m)) !! param_id params = Some t1
  ∧ (∃ first rest,
       snd (handle_task_send_subscribe params uuid4 m)
       = Ok (StatusUpdate first :: rest))
  ∧ _tasks (fst (handle_task_send_subscribe params uuid4 m)) !! param_id params
    = Some t1.
Proof.
  intros Hroute Hstored Hst t1.
  destruct (accept_message_stored params
              (py_or (param_sessionId params) uuid4) m task Hstored Hst)
    as (m1 & Hacc & Htasks & _).
  fold t1 in Hacc, Htasks.
  assert (Hl : _tasks m1 !! param_id params = Some t1)
    by (rewrite Htasks; apply lookup_insert_eq).
  destruct (handle_task_send_accepted _ _ _ _ _ _ Hroute Hacc Hl)
    as (m2 & Hsend & Htasks2 & _).
  destruct (handle_task_send_subscribe_accepted _ _ _ _ _ _ Hroute Hacc)
    as (m3 & Hsub & Htasks3 & _).
  split_and!.
  - by exists m1.
  - by rewrite Hsend.
  - by rewrite Hsend; simpl; rewrite Htasks2.
  - rewrite Hsub. simpl. by eexists _, _.
  - by rewrite Hsub; simpl; rewrite Htasks3.
Qed.

(** With a queue, each call of a handler on its context puts exactly one
    item, an update and never an error. *)
Lemma perform_all_with_queue context calls :
  context_has_queue context = true →
  length (perform_all context calls) = length calls
  ∧ Forall (λ item, ∀ err, item ≠ QueuedError err) (perform_all context calls).
Proof.
  intros Hq. unfold perform_all.
  induction calls as [| c calls [IHlen IHall]]; [by split |].
  simpl. rewrite length_app, IHlen.
  destruct c; simpl; unfold update_status, yield_artifact; rewrite Hq; simpl;
    (split; [done | by constructor]).
Qed.

(** [update_status] puts status updates only. *)
Lemma update_status_no_error context st message_text final :
  Forall (λ item, ∀ err, item ≠ QueuedError err)
    (update_status context st message_text final).
Proof.
  unfold update_status. destruct (context_has_queue context); simpl;
    by repeat constructor.
Qed.

(** C7: for a stored task and a request that routes to a handler, the message
    is accepted exactly when the state of the task is one of the accepting
    states.  It is then appended to the history and the state is set to
    ["working"] (by [accept_message], the block both send methods run under
    the lock), and when either send method is over the registry holds that
    task under the id of the request and is otherwise as it was;
    [handle_task_send] returns the task, and the queue of
    [handle_task_send_subscribe] starts with a ["working"] status that is
    not final and holds no error.  In any other state [handle_task_send]
    raises an [A2AError] with code -32004, [handle_task_send_subscribe]
    reports that error on the queue, and the registry is unchanged. *)
Theorem send_accepted_exactly_in_accepting_states
    (m : A2ATaskManager) (params : A2ATaskSendParams) (uuid4 : string)
    (handler : Callable) (task : A2ATask) :
  get_handler (router m) (skill_id_of params) = Some handler →
  _tasks m !! param_id params = Some task →
  (state (task_status task) ∈ accepting_states →
     ∃ m1 t1,
       accept_message params (py_or (param_sessionId params) uuid4) m
       = (m1, Ok (inl t1))
       ∧ _tasks m1 !! param_id params = Some t1
       ∧ task_history t1 = task_history task ++ [param_message params]
       ∧ state (task_status t1) = "working"
       ∧ snd (handle_task_send params uuid4 m) = Ok t1
       ∧ (∃ first rest,
            snd (handle_task_send_subscribe params uuid4 m)
            = Ok (StatusUpdate first :: rest)
            ∧ state (status_event_status first) = "working"
            ∧ status_event_final first = false
            ∧ Forall (λ item, ∀ err, item ≠ QueuedError err) rest)
       ∧ t1 = with_status working
                (with_sessionId
                   (Some (py_or (param_sessionId params) uuid4))
                   (with_history
                      (task_history task ++ [param_message params]) task))
       ∧ _tasks (fst (handle_task_send params uuid4 m))
         = <[param_id params := t1]> (_tasks m)
       ∧ _tasks (fst (handle_task_send_subscribe params uuid4 m))
         = <[param_id params := t1]> (_tasks m))
  ∧ (state (task_status task) ∉ accepting_states →
       ∃ err err',
         snd (handle_task_send params uuid4 m) = Err (RaisedA2AError err)
         ∧ error_code err = -32004
         ∧ _tasks (fst (handle_task_send params uuid4 m)) = _tasks m
         ∧ snd (handle_task_send_subscribe params uuid4 m)
           = Ok [QueuedError err']
         ∧ error_code err' = -32004
         ∧ _tasks (fst (handle_task_send_subscribe params uuid4 m))
           = _tasks m).
Proof.
  intros Hroute Hstored. split; intros Hst.
  - destruct (accept_message_stored params
                (py_or (param_sessionId params) uuid4) m task Hstored Hst)
      as (m1 & Hacc & Htasks & _).
    set (t1 := with_status working _) in *.
    assert (Hl : _tasks m1 !! param_id params = Some t1)
      by (rewrite Htasks; apply lookup_insert_eq).
    destruct (handle_task_send_accepted _ _ _ _ _ _ Hroute Hacc Hl)
      as (m2 & Hsend & Htasks2 & _).
    destruct (handle_task_send_subscribe_accepted _ _ _ _ _ _ Hroute Hacc)
      as (m3 & Hsub & Htasks3 & _).
    exists m1, t1. rewrite Hsend, Hsub. simpl.
    split_and!; [done | done | done | done | done | | done | | ].
    + eexists _, _. split_and!; [reflexivity | done | done |].
      apply Forall_app. split.
      * by apply perform_all_with_queue.
      * destruct (snd (call handler _)) as [result | e]; simpl;
          [destruct (final_message_text _); simpl |];
          apply update_status_no_error.
    + by rewrite Htasks2.
    + by rewrite Htasks3.
  - destruct (handle_task_send_refused _ uuid4 _ _ _ Hroute Hstored Hst)
      as (err & ? & ? & ? & _).
    destruct (handle_task_send_subscribe_refused _ uuid4 _ _ _
                Hroute Hstored Hst) as (err' & ? & ? & ? & _).
    exists err, err'. by split_and!.
Qed.

Lemma send_accepted_exactly_in_accepting_states_witness :
  let uuid4 := Sample.uuid4 in
  let m := Sample.holding "completed" Sample.echo in
  (∃ m1 t1,
     accept_message Sample.send_again "s2" m = (m1, Ok (inl t1))
     ∧ _tasks m1 !! "t1" = Some t1
     ∧ task_history t1 = [Sample.hello] ++ [Sample.again]
     ∧ state (task_status t1) = "working"
     ∧ snd (handle_task_send Sample.send_again uuid4 m) = Ok t1
     ∧ (∃ first rest,
          snd (handle_task_send_subscribe Sample.send_again uuid4 m)
          = Ok (StatusUpdate first :: rest)
          ∧ state (status_event_status first) = "working"
          ∧ status_event_final first = false
          ∧ Forall (λ item, ∀ err, item ≠ QueuedError err) rest)
     ∧ t1 = with_status working
              (with_sessionId (Some "s2")
                 (with_history ([Sample.hello] ++ [Sample.again])
                    (Sample.task_in "completed")))
     ∧ _tasks (fst (handle_task_send Sample.send_again uuid4 m))
       = <["t1" := t1]> (_tasks m)
     ∧ _tasks (fst (handle_task_send_subscribe Sample.send_again uuid4 m))
       = <["t1" := t1]> (_tasks m))
  ∧ (∃ err err',
       snd (handle_task_send Sample.send_again uuid4
              (Sample.holding "failed" Sample.echo))
       = Err (RaisedA2AError err)
       ∧ error_code err = -32004
       ∧ _tasks (fst (handle_task_send Sample.send_again uuid4
                        (Sample.holding "failed" Sample.echo)))
         = _tasks (Sample.holding "failed" Sample.echo)
       ∧ snd (handle_task_send_subscribe Sample.send_again uuid4
                (Sample.holding "failed" Sample.echo))
         = Ok [QueuedError err']
       ∧ error_code err' = -32004
       ∧ _tasks (fst (handle_task_send_subscribe Sample.send_again uuid4
                        (Sample.holding "failed" Sample.echo)))
         = _tasks (Sample.holding "failed" Sample.echo)).
Proof.
  intros uuid4 m. split.
  - apply (proj1 (send_accepted_exactly_in_accepting_states
                    (Sample.holding "completed" Sample.echo) Sample.send_again
                    uuid4 Sample.echo (Sample.task_in "completed")
                    eq_refl eq_refl)).
    apply (bool_decide_unpack _). vm_compute. exact I.
  - apply (proj2 (send_accepted_exactly_in_accepting_states
                    (Sample.holding "failed" Sample.echo) Sample.send_again
                    uuid4 Sample.echo (Sample.task_in "failed")
                    eq_refl eq_refl)).
    apply (bool_decide_unpack _). vm_compute. exact I.
Defined.

(** ** The session id of a re-entered task (C10) *)

(** C10, as stated, fails when the request supplies the empty string as its
    session id: the stored session id does not become the request's one, it
    becomes the generated UUID ([params.sessionId or str(uuid.uuid4())]). *)
Lemma resend_blank_session_counterexample :
  let m := Sample.after_send Sample.echo in
  let m' :=
    fst (handle_task_send Sample.send_again_blank_session Sample.uuid4 m) in
  is_Some (_tasks m !! "t1")
  ∧ param_sessionId Sample.send_again_blank_session = Some ""
  ∧ task_sessionId <$> _tasks m' !! "t1" = Some (Some Sample.uuid4)
  ∧ task_sessionId <$> _tasks m' !! "t1"
    ≠ Some (param_sessionId Sample.send_again_blank_session).
Proof.
  split_and!; [by eexists | reflexivity | reflexivity |].
  vm_compute. discriminate.
Qed.

(** C10 (amended): a [tasks/send] or [tasks/sendSubscribe] accepted for a
    stored task overwrites its session id, whatever it was: with the request's
    session id when the request supplies a non-empty one, and with the
    generated UUID when it supplies none or the empty string. *)
Theorem resend_overwrites_session
    (m : A2ATaskManager) (params : A2ATaskSendParams) (uuid4 : string)
    (handler : Callable) (task : A2ATask) :
  get_handler (router m) (skill_id_of params) = Some handler →
  _tasks m !! param_id params = Some task →
  state (task_status task) ∈ accepting_states →
  ∃ sent streamed,
    _tasks (fst (handle_task_send params uuid4 m)) !! param_id params
    = Some sent
    ∧ _tasks (fst (handle_task_send_subscribe params uuid4 m))
        !! param_id params = Some streamed
    ∧ (∀ s, param_sessionId params = Some s → s ≠ "" →
         task_sessionId sent = Some s ∧ task_sessionId streamed = Some s)
    ∧ (param_sessionId params = None ∨ param_sessionId params = Some "" →
         task_sessionId sent = Some uuid4
         ∧ task_sessionId streamed = Some uuid4).
Proof.
  intros Hroute Hstored Hst.
  destruct (resend_stored _ uuid4 _ _ _ Hroute Hstored Hst)
    as (_ & _ & Hsend & _ & Hsub).
  eexists _, _. split; [exact Hsend |]. split; [exact Hsub |].
  simpl. split.
  - intros s Hs Hne. by rewrite (py_or_truthy _ s uuid4 Hs Hne).
  - intros Hs. by rewrite (py_or_falsy _ uuid4 Hs).
Qed.

Lemma resend_overwrites_session_witness :
  let uuid4 := Sample.uuid4 in
  let m := Sample.holding "completed" Sample.echo in
  ∃ sent streamed,
    _tasks (fst (handle_task_send Sample.send_again uuid4 m)) !! "t1"
    = Some sent
    ∧ _tasks (fst (handle_task_send_subscribe Sample.send_again uuid4 m))
        !! "t1" = Some streamed
    ∧ task_sessionId sent = Some "s2"
    ∧ task_sessionId streamed = Some "s2".
Proof.
  intros uuid4 m.
  destruct (resend_overwrites_session m Sample.send_again uuid4 Sample.echo
              (Sample.task_in "completed") eq_refl eq_refl)
    as (sent & streamed & Hsent & Hstreamed & Hsome & _).
  { apply (bool_decide_unpack _). vm_compute. exact I. }
  exists sent, streamed.
  destruct (Hsome "s2" eq_refl) as [H1 H2]; [discriminate |].
  by split_and!.
Defined.

(** ** What a send commits (C1) *)

(** [accept_message] either refuses the message and leaves the registry
    alone, or stores a task in state ["working"]; the dead-letter queue and
    the router are not touched. *)
Lemma accept_message_cases params session_id m :
  ∃ m1 r,
    accept_message params session_id m = (m1, Ok r)
    ∧ a2a_dlq m1 = a2a_dlq m
    ∧ router m1 = router m
    ∧ match r with
      | inr _ => _tasks m1 = _tasks m
      | inl t1 =>
          _tasks m1 !! param_id params = Some t1
          ∧ task_status t1 = working
          ∧ task_artifacts t1
            = from_option task_artifacts [] (_tasks m !! param_id params)
      end.
Proof.
  destruct (_tasks m !! param_id params) as [task |] eqn:Hstored.
  - destruct (decide (state (task_status task) ∈ accepting_states)) as [Hst | Hst].
    + destruct (accept_message_stored params session_id m task Hstored Hst)
        as (m1 & Hacc & Htasks & Hdlq & Hrouter).
      eexists m1, _. split; [exact Hacc |]. split_and!; try done.
      rewrite Htasks. apply lookup_insert_eq.
    + destruct (accept_message_refused params session_id m task Hstored Hst)
        as (m1 & Hacc & Htasks & Hdlq & _ & Hrouter).
      eexists m1, _. split; [exact Hacc |]. by split_and!.
  - destruct (accept_message_new params session_id m Hstored)
      as (m1 & Hacc & Htasks & Hdlq & Hrouter).
    eexists m1, _. split; [exact Hacc |]. split_and!; try done.
    rewrite Htasks. apply lookup_insert_eq.
Qed.

(** A message for a new task, or for a stored task in an accepting state,
    is accepted. *)
Lemma accept_message_accepts params session_id m :
  (∀ task, _tasks m !! param_id params = Some task →
           state (task_status task) ∈ accepting_states) →
  ∃ m1 t1,
    accept_message params session_id m = (m1, Ok (inl t1))
    ∧ a2a_dlq m1 = a2a_dlq m
    ∧ _tasks m1 !! param_id params = Some t1
    ∧ task_status t1 = working
    ∧ task_artifacts t1
      = from_option task_artifacts [] (_tasks m !! param_id params).
Proof.
  intros Hst.
  destruct (accept_message_cases params session_id m)
    as (m1 & [t1 | st] & Hacc & Hdlq & _ & Hcase).
  - exists m1, t1. destruct Hcase as (? & ? & ?). by split_and!.
  - exfalso.
    destruct (_tasks m !! param_id params) as [task |] eqn:Hstored.
    + destruct (accept_message_stored params session_id m task Hstored
                  (Hst task eq_refl)) as (? & Hacc' & _).
      congruence.
    + destruct (accept_message_new params session_id m Hstored)
        as (? & Hacc' & _).
      congruence.
Qed.

(** Whatever the handler returns or raises, an accepted [tasks/send] leaves
    the stored task in state ["working"], with the artifacts it had before
    the call: the three commits of [handle_task_send] are coroutines that are
    never awaited. *)
Lemma handle_task_send_commits_nothing params uuid4 m handler :
  get_handler (router m) (skill_id_of params) = Some handler →
  (∀ task, _tasks m !! param_id params = Some task →
           state (task_status task) ∈ accepting_states) →
  ∃ t,
    snd (handle_task_send params uuid4 m) = Ok t
    ∧ _tasks (fst (handle_task_send params uuid4 m)) !! param_id params
      = Some t
    ∧ task_status t = working
    ∧ task_artifacts t
      = from_option task_artifacts [] (_tasks m !! param_id params).
Proof.
  intros Hroute Hst.
  destruct (accept_message_accepts params
              (py_or (param_sessionId params) uuid4) m Hst)
    as (m1 & t1 & Hacc & _ & Hl & Hworking & Harts).
  destruct (handle_task_send_accepted _ _ _ _ _ _ Hroute Hacc Hl)
    as (m2 & Hsend & Htasks2 & _).
  exists t1. rewrite Hsend. simpl. rewrite Htasks2. by split_and!.
Qed.

(** C1 does not hold of the code.  A first [tasks/send] whose handler returns
    a completed result with one artifact leaves the stored task in state
    ["working"] with no artifact; one whose handler raises leaves it in state
    ["working"] with no message; and a crash on a re-entered task does not
    clear the artifacts either. *)
Theorem handle_task_send_leaves_task_working :
  let uuid4 := Sample.uuid4 in
  let completed :=
    fst (handle_task_send Sample.send_hello uuid4
           (Sample.manager_with Sample.echo)) in
  let crashed :=
    fst (handle_task_send Sample.send_hello uuid4
           (Sample.manager_with Sample.crash)) in
  let crashed_again :=
    fst (handle_task_send Sample.send_again uuid4
           (Sample.holding "completed" Sample.crash)) in
  snd (call Sample.echo
         {| context_task := Sample.task_in "working";
            context_has_queue := false |})
  = Return (A2ATaskResult_init "completed" None (Some [Sample.report]))
  ∧ task_status <$> _tasks completed !! "t1"
    = Some {| state := "working"; message := None; timestamp := when_built |}
  ∧ task_artifacts <$> _tasks completed !! "t1" = Some []
  ∧ task_status <$> _tasks crashed !! "t1"
    = Some {| state := "working"; message := None; timestamp := when_built |}
  ∧ task_status <$> _tasks crashed_again !! "t1"
    = Some {| state := "working"; message := None; timestamp := when_built |}
  ∧ task_artifacts <$> _tasks crashed_again !! "t1" = Some [Sample.report].
Proof. split_and!; reflexivity. Qed.

(** ** Cancellation (C5) *)

(** [handle_task_cancel] never changes the registry, in no state of the
    task: the commit of the canceled status is a coroutine that is never
    awaited. *)
Lemma handle_task_cancel_registry_unchanged task_id m :
  _tasks (fst (handle_task_cancel task_id m)) = _tasks m.
Proof.
  unfold handle_task_cancel, _get_task_lock, copy_of_task, increment_metric.
  run_manager. simpl.
  destruct (_tasks m !! task_id) as [task |] eqn:Hstored; [| done].
  destruct (bool_decide (state (task_status task) ∈ terminal_states));
    simpl; by rewrite Hstored.
Qed.

Lemma handle_task_cancel_stored task_id m task :
  _tasks m !! task_id = Some task →
  snd (handle_task_cancel task_id m) = Ok task.
Proof.
  intros Hstored.
  unfold handle_task_cancel, _get_task_lock, copy_of_task, increment_metric.
  run_manager. simpl. rewrite Hstored.
  destruct (bool_decide (state (task_status task) ∈ terminal_states));
    simpl; by rewrite Hstored.
Qed.

Lemma handle_task_cancel_unknown task_id m :
  _tasks m !! task_id = None →
  ∃ err, snd (handle_task_cancel task_id m) = Err (RaisedA2AError err)
         ∧ error_code err = -32001.
Proof.
  intros Hstored.
  unfold handle_task_cancel, _get_task_lock. run_manager. simpl.
  rewrite Hstored. by eexists.
Qed.

(** Cancelling twice returns the same task twice. *)
Lemma handle_task_cancel_twice task_id m :
  snd (handle_task_cancel task_id (fst (handle_task_cancel task_id m)))
  = snd (handle_task_cancel task_id m).
Proof.
  destruct (_tasks m !! task_id) as [task |] eqn:Hstored.
  - rewrite (handle_task_cancel_stored _ m task Hstored).
    apply handle_task_cancel_stored.
    by rewrite handle_task_cancel_registry_unchanged.
  - unfold handle_task_cancel at 1 3, _get_task_lock. run_manager. simpl.
    rewrite handle_task_cancel_registry_unchanged. by rewrite Hstored.
Qed.

(** C5 does not hold of the code.  After a [tasks/send] the stored task is
    in the non-terminal state ["working"]; cancelling it returns it in state
    ["working"] and the registry keeps it so: nothing moves to ["canceled"]
    (only the counter of cancellations is incremented).  Artifacts are not
    cleared either, as a task stored with an artifact shows. *)
Theorem handle_task_cancel_leaves_task_working :
  let m := Sample.after_send Sample.echo in
  let m' := fst (handle_task_cancel "t1" m) in
  let with_artifact := Sample.holding "working" Sample.echo in
  task_status <$> _tasks m !! "t1"
  = Some {| state := "working"; message := None; timestamp := when_built |}
  ∧ ("working" ∉ terminal_states)
  ∧ (∃ returned,
       snd (handle_task_cancel "t1" m) = Ok returned
       ∧ state (task_status returned) = "working")
  ∧ task_status <$> _tasks m' !! "t1"
    = Some {| state := "working"; message := None; timestamp := when_built |}
  ∧ kb m' !! ("a2a_tasks", "canceled") = Some 1
  ∧ task_artifacts <$>
      _tasks (fst (handle_task_cancel "t1" with_artifact)) !! "t1"
    = Some [Sample.report].
Proof.
  split_and!; try reflexivity.
  - apply (bool_decide_unpack _). vm_compute. exact I.
  - eexists. split; reflexivity.
Qed.

(** ** The dead-letter queue (C4) *)

(** The queue is append-only: a request extends it by a (possibly empty)
    list of entries. *)
Lemma handle_task_send_dlq_extends params uuid4 m :
  ∃ entries,
    a2a_dlq (fst (handle_task_send params uuid4 m)) = a2a_dlq m ++ entries.
Proof.
  destruct (get_handler (router m) (skill_id_of params)) as [handler |] eqn:Hroute.
  - destruct (accept_message_cases params
                (py_or (param_sessionId params) uuid4) m)
      as (m1 & [t1 | st] & Hacc & Hdlq & _ & Hcase).
    + destruct Hcase as (Hl & _).
      destruct (handle_task_send_accepted _ _ _ _ _ _ Hroute Hacc Hl)
        as (m2 & Hsend & _ & _ & Hdlq2).
      rewrite Hsend. simpl. rewrite Hdlq2, Hdlq. by eexists.
    + exists []. unfold handle_task_send. run_manager.
      rewrite (_get_handler_for_task_found _ _ _ Hroute), Hacc. simpl.
      by rewrite app_nil_r.
  - destruct (handle_task_send_not_routed params uuid4 m Hroute)
      as (err & -> & _).
    rewrite _add_to_dlq_run. simpl. by eexists.
Qed.

Lemma handle_task_send_subscribe_dlq_extends params uuid4 m :
  ∃ entries,
    a2a_dlq (fst (handle_task_send_subscribe params uuid4 m))
    = a2a_dlq m ++ entries.
Proof.
  destruct (get_handler (router m) (skill_id_of params)) as [handler |] eqn:Hroute.
  - destruct (accept_message_cases params
                (py_or (param_sessionId params) uuid4) m)
      as (m1 & [t1 | st] & Hacc & Hdlq & _ & Hcase).
    + destruct (handle_task_send_subscribe_accepted _ _ _ _ _ _ Hroute Hacc)
        as (m2 & Hsub & _ & _ & Hdlq2).
      rewrite Hsub. simpl. rewrite Hdlq2, Hdlq. by eexists.
    + exists []. unfold handle_task_send_subscribe. run_manager.
      rewrite (_get_handler_for_task_found _ _ _ Hroute), Hacc. simpl.
      by rewrite app_nil_r.
  - destruct (handle_task_send_subscribe_unroutable m params uuid4 Hroute)
      as (_ & entry & _ & _ & Hdlq & _).
    by exists [entry].
Qed.

Lemma handle_task_get_dlq task_id history_length m :
  a2a_dlq (fst (handle_task_get task_id history_length m)) = a2a_dlq m.
Proof.
  unfold handle_task_get, _get_task_lock. run_manager. simpl.
  destruct (_tasks m !! task_id) as [task |]; [| done].
  destruct (_ && _); [done |]. by destruct (history_length =? 0).
Qed.

Lemma handle_task_cancel_dlq task_id m :
  a2a_dlq (fst (handle_task_cancel task_id m)) = a2a_dlq m.
Proof.
  unfold handle_task_cancel, _get_task_lock, copy_of_task, increment_metric.
  run_manager. simpl.
  destruct (_tasks m !! task_id) as [task |] eqn:Hstored; [| done].
  destruct (bool_decide (state (task_status task) ∈ terminal_states));
    simpl; by rewrite Hstored.
Qed.

Lemma serve_dlq_extends rq m :
  ∃ entries, a2a_dlq (serve rq m) = a2a_dlq m ++ entries.
Proof.
  destruct rq as [params uuid4 | params uuid4 | task_id n | task_id]; simpl.
  - apply handle_task_send_dlq_extends.
  - apply handle_task_send_subscribe_dlq_extends.
  - exists []. by rewrite handle_task_get_dlq, app_nil_r.
  - exists []. by rewrite handle_task_cancel_dlq, app_nil_r.
Qed.

(** Under any sequence of requests the dead-letter queue keeps its entries,
    in their order; its length never decreases. *)
Lemma serve_all_dlq_extends rqs m :
  ∃ entries, a2a_dlq (serve_all rqs m) = a2a_dlq m ++ entries.
Proof.
  revert m. induction rqs as [| rq rqs IH]; intros m.
  - exists []. by rewrite app_nil_r.
  - change (serve_all (rq :: rqs) m) with (serve_all rqs (serve rq m)).
    destruct (serve_dlq_extends rq m) as [first Hfirst].
    destruct (IH (serve rq m)) as [others Hothers].
    exists (first ++ others). by rewrite Hothers, Hfirst, app_assoc.
Qed.

Lemma dlq_never_shrinks rqs m :
  (length (a2a_dlq m) ≤ length (a2a_dlq (serve_all rqs m)))%nat.
Proof.
  destruct (serve_all_dlq_extends rqs m) as [entries ->].
  rewrite length_app. lia.
Qed.

(** A failure of the handler of a one-shot [tasks/send] (it raises, or it
    returns a result in state ["failed"]) files exactly one entry. *)
Lemma handle_task_send_failure_files_one params uuid4 m handler :
  get_handler (router m) (skill_id_of params) = Some handler →
  (∀ task, _tasks m !! param_id params = Some task →
           state (task_status task) ∈ accepting_states) →
  (∀ context,
     match snd (call handler context) with
     | Return result => state (final_status result) = "failed"
     | Raise _ => True
     end) →
  length (a2a_dlq (fst (handle_task_send params uuid4 m)))
  = S (length (a2a_dlq m)).
Proof.
  intros Hroute Hst Hfail.
  destruct (accept_message_accepts params
              (py_or (param_sessionId params) uuid4) m Hst)
    as (m1 & t1 & Hacc & Hdlq & Hl & _).
  destruct (handle_task_send_accepted _ _ _ _ _ _ Hroute Hacc Hl)
    as (m2 & Hsend & _ & _ & Hdlq2).
  rewrite Hsend. simpl. rewrite Hdlq2, Hdlq, length_app.
  specialize (Hfail {| context_task := t1; context_has_queue := false |}).
  destruct (snd (call handler _)) as [result | e]; simpl.
  - rewrite bool_decide_eq_true_2 by done. simpl. lia.
  - lia.
Qed.

(** A handler that raises under [tasks/sendSubscribe] files two entries: one
    in the [except] clause and one more in the [finally] clause. *)
Lemma handle_task_send_subscribe_crash_files_two params uuid4 m handler :
  get_handler (router m) (skill_id_of params) = Some handler →
  (∀ task, _tasks m !! param_id params = Some task →
           state (task_status task) ∈ accepting_states) →
  (∀ context, ∃ e, snd (call handler context) = Raise e) →
  length (a2a_dlq (fst (handle_task_send_subscribe params uuid4 m)))
  = S (S (length (a2a_dlq m))).
Proof.
  intros Hroute Hst Hcrash.
  destruct (accept_message_accepts params
              (py_or (param_sessionId params) uuid4) m Hst)
    as (m1 & t1 & Hacc & Hdlq & _).
  destruct (handle_task_send_subscribe_accepted _ _ _ _ _ _ Hroute Hacc)
    as (m2 & Hsub & _ & _ & Hdlq2).
  rewrite Hsub. simpl. rewrite Hdlq2, Hdlq, length_app.
  destruct (Hcrash {| context_task := t1; context_has_queue := true |})
    as [e ->].
  simpl. lia.
Qed.

(** C4 does not hold of the code.  One [tasks/sendSubscribe] whose handler
    raises makes the dead-letter queue grow by two entries, where the same
    handler under [tasks/send], and a handler that returns a failed result
    under [tasks/sendSubscribe], make it grow by one. *)
Theorem streaming_crash_files_two_dead_letters :
  let uuid4 := Sample.uuid4 in
  let m := Sample.manager_with Sample.crash in
  a2a_dlq m = []
  ∧ a2a_dlq (fst (handle_task_send_subscribe Sample.send_hello uuid4 m))
    = [("t1", "tasks/sendSubscribe", HandlerException "boom");
       ("t1", "tasks/sendSubscribe",
        StreamHandlerFailed
          (Some {| role := "agent";
                   parts := [A2ATextPart "Internal error: boom"];
                   metadata := None |}))]
  ∧ a2a_dlq (fst (handle_task_send Sample.send_hello uuid4 m))
    = [("t1", "tasks/send", HandlerException "boom")]
  ∧ length (a2a_dlq (fst (handle_task_send_subscribe Sample.send_hello uuid4
                            (Sample.manager_with Sample.decline)))) = 1%nat.
Proof. split_and!; reflexivity. Qed.

(** ** Reading a task (C2) *)

Lemma py_slice_from_last {A} (n : Z) (l : list A) :
  0 < n → n ≤ Z.of_nat (length l) →
  ∃ front, l = front ++ py_slice_from (- n) l
           ∧ Z.of_nat (length (py_slice_from (- n) l)) = n.
Proof.
  intros Hpos Hle. unfold py_slice_from.
  destruct (Z.ltb_spec (- n) 0) as [_ | ?]; [| lia].
  rewrite Z.max_l by lia.
  exists (take (Z.to_nat (- n + Z.of_nat (length l))) l).
  split; [by rewrite take_drop |].
  rewrite length_drop. lia.
Qed.

Lemma py_slice_from_all {A} (n : Z) (l : list A) :
  Z.of_nat (length l) ≤ n → py_slice_from (- n) l = l.
Proof.
  intros Hle. unfold py_slice_from.
  destruct (Z.ltb_spec (- n) 0) as [? | ?].
  - rewrite Z.max_r by lia. reflexivity.
  - assert (n = 0) as -> by lia. simpl.
    rewrite Z.min_l by lia. reflexivity.
Qed.

(** [l[-0:]] is [l[0:]], the whole list. *)
Lemma py_slice_from_zero {A} (l : list A) : py_slice_from (- 0) l = l.
Proof. unfold py_slice_from. simpl. rewrite Z.min_l by lia. reflexivity. Qed.

Lemma with_history_same task : with_history (task_history task) task = task.
Proof. by destruct task. Qed.

Lemma handle_task_get_run task_id n m task :
  _tasks m !! task_id = Some task →
  handle_task_get task_id n m
  = (set_task_locks (λ locks, {[task_id]} ∪ locks) m,
     Ok (with_history
           (if (0 <=? n) && negb (bool_decide (task_history task = []))
            then py_slice_from (- n) (task_history task)
            else if n =? 0 then [] else task_history task)
           task)).
Proof.
  intros Hstored. unfold handle_task_get, _get_task_lock. run_manager. simpl.
  rewrite Hstored.
  destruct (_ && _); [done |].
  destruct (n =? 0); [done |]. by rewrite with_history_same.
Qed.

Lemma handle_task_get_registry_unchanged task_id n m :
  _tasks (fst (handle_task_get task_id n m)) = _tasks m.
Proof.
  destruct (_tasks m !! task_id) as [task |] eqn:Hstored.
  - by rewrite (handle_task_get_run _ _ _ _ Hstored).
  - unfold handle_task_get, _get_task_lock. run_manager. simpl.
    by rewrite Hstored.
Qed.

(** With [historyLength == 0] a non-empty history is returned whole: the
    first test of [handle_task_get] takes the case, and slices from [-0]. *)
Lemma handle_task_get_zero_keeps_history task_id m task :
  _tasks m !! task_id = Some task →
  task_history task ≠ [] →
  snd (handle_task_get task_id 0 m) = Ok task.
Proof.
  intros Hstored Hne. rewrite (handle_task_get_run _ _ _ _ Hstored). simpl.
  rewrite bool_decide_eq_false_2 by done. simpl.
  by rewrite (py_slice_from_zero (task_history task)), with_history_same.
Qed.

(** C2, as stated, fails for a negative [historyLength]: the copy carries the
    whole history, not an empty one. *)
Lemma handle_task_get_negative_counterexample :
  let m := Sample.after_send Sample.echo in
  ∃ copy,
    snd (handle_task_get "t1" (-1) m) = Ok copy
    ∧ task_history copy = [Sample.hello]
    ∧ task_history copy ≠ [].
Proof. eexists. split_and!; [reflexivity | reflexivity | discriminate]. Qed.

(** C2 (amended): [handle_task_get] on a stored task returns a copy that
    differs from it in its history at most: for [historyLength = N > 0] the
    last [N] messages when at least [N] exist (all of them when fewer do), for
    [historyLength < 0] the whole history, for [historyLength = 0] the
    empty history when the stored history is empty.  The registry is left
    unchanged, and an unknown id raises an [A2AError] with code -32001. *)
Theorem handle_task_get_history
    (m : A2ATaskManager) (task_id : string) (n : Z) :
  (∀ task, _tasks m !! task_id = Some task →
     ∃ copy,
       snd (handle_task_get task_id n m) = Ok copy
       ∧ copy = with_history (task_history copy) task
       ∧ (0 < n → n ≤ Z.of_nat (length (task_history task)) →
            ∃ front, task_history task = front ++ task_history copy
                     ∧ Z.of_nat (length (task_history copy)) = n)
       ∧ (0 < n → Z.of_nat (length (task_history task)) < n →
            task_history copy = task_history task)
       ∧ (n < 0 → task_history copy = task_history task)
       ∧ (n = 0 → task_history task = [] → task_history copy = []))
  ∧ (_tasks m !! task_id = None →
       ∃ err, snd (handle_task_get task_id n m) = Err (RaisedA2AError err)
              ∧ error_code err = -32001)
  ∧ _tasks (fst (handle_task_get task_id n m)) = _tasks m.
Proof.
  split_and!.
  - intros task Hstored. rewrite (handle_task_get_run _ _ _ _ Hstored).
    eexists. split; [reflexivity |]. split; [reflexivity |]. simpl.
    destruct (bool_decide (task_history task = [])) eqn:Hempty;
      [apply bool_decide_eq_true_1 in Hempty
      | apply bool_decide_eq_false_1 in Hempty];
      simpl; rewrite ?andb_false_r, ?andb_true_r.
    + rewrite Hempty. destruct (Z.eqb_spec n 0) as [-> | Hn]; simpl;
        split_and!; try (done || lia).
    + destruct (Z.leb_spec 0 n) as [Hn | Hn].
      * split_and!; try lia.
        -- intros Hpos Hle. by apply py_slice_from_last.
        -- intros Hpos Hlt. apply py_slice_from_all. lia.
        -- intros -> Hnil. done.
      * destruct (Z.eqb_spec n 0) as [-> | _]; [lia |].
        split_and!; try (done || lia).
  - intros Hstored. unfold handle_task_get, _get_task_lock. run_manager.
    simpl. rewrite Hstored. by eexists.
  - apply handle_task_get_registry_unchanged.
Qed.

Lemma handle_task_get_history_witness :
  (∃ copy front,
     snd (handle_task_get "t1" 2 Sample.holding_long) = Ok copy
     ∧ task_history Sample.long_task = front ++ task_history copy
     ∧ Z.of_nat (length (task_history copy)) = 2)
  ∧ (∃ err, snd (handle_task_get "t9" 2 Sample.holding_long)
            = Err (RaisedA2AError err)
            ∧ error_code err = -32001).
Proof.
  split.
  - destruct (proj1 (handle_task_get_history Sample.holding_long "t1" 2)
                Sample.long_task eq_refl)
      as (copy & Hget & _ & Hlast & _).
    destruct Hlast as (front & Hfront & Hlen); [lia | simpl; lia |].
    by exists copy, front.
  - apply (proj1 (proj2 (handle_task_get_history Sample.holding_long "t9" 2))).
    reflexivity.
Defined.

(** ** The events of a streaming call (C3) *)




(** The artifact of the result is not committed either: when a streaming call
    is over the stored task is the one [accept_message] stored, in state
    ["working"] and with the artifacts it had before the call. *)
Lemma handle_task_send_subscribe_commits_nothing params uuid4 m handler :
  get_handler (router m) (skill_id_of params) = Some handler →
  (∀ task, _tasks m !! param_id params = Some task →
           state (task_status task) ∈ accepting_states) →
  ∃ t,
    _tasks (fst (handle_task_send_subscribe params uuid4 m)) !! param_id params
    = Some t
    ∧ task_status t = working
    ∧ task_artifacts t
      = from_option task_artifacts [] (_tasks m !! param_id params).
Proof.
  intros Hroute Hst.
  destruct (accept_message_accepts params
              (py_or (param_sessionId params) uuid4) m Hst)
    as (m1 & t1 & Hacc & _ & Hl & Hworking & Harts).
  destruct (handle_task_send_subscribe_accepted _ _ _ _ _ _ Hroute Hacc)
    as (m2 & Hsub & Htasks2 & _).
  exists t1. rewrite Hsub. simpl. rewrite Htasks2. by split_and!.
Qed.

(** ** File parts (C8) *)

(** C8, as stated, fails for a file part whose [bytes] field is the empty
    string: the field is present and is well-formed base64 (of no byte at
    all), yet the part is not decoded; it is refused as having neither bytes
    nor URI. *)
Lemma process_file_part_blank_bytes_counterexample :
  let part := Sample.file_of (Some "") None in
  file_bytes part = Some ""
  ∧ b64decode_strict "" = Some []
  ∧ process_file_part b64decode_strict part
    = inr (ValueError "File part has neither bytes nor URI.")
  ∧ process_file_part b64decode_strict part ≠ inl [].
Proof. split_and!; try reflexivity. discriminate. Qed.

(** C8 (amended): [process_file_part] returns the decoded bytes when the
    [bytes] field is present, not empty, and well-formed base64; raises a
    [ValueError] when it is present, not empty, and malformed; raises
    [NotImplementedError] when [bytes] is absent or empty and [uri] is
    present and not empty; and raises a [ValueError] when each of the two
    fields is absent or empty. *)
Theorem process_file_part_cases
    (b64decode : string → option (list byte)) (part : A2AFile) :
  (∀ s decoded, file_bytes part = Some s → s ≠ "" →
     b64decode s = Some decoded →
     process_file_part b64decode part = inl decoded)
  ∧ (∀ s, file_bytes part = Some s → s ≠ "" → b64decode s = None →
       ∃ msg, process_file_part b64decode part = inr (ValueError msg))
  ∧ (∀ u, file_bytes part = None ∨ file_bytes part = Some "" →
       file_uri part = Some u → u ≠ "" →
       ∃ msg,
         process_file_part b64decode part = inr (NotImplementedError msg))
  ∧ (file_bytes part = None ∨ file_bytes part = Some "" →
     file_uri part = None ∨ file_uri part = Some "" →
     ∃ msg, process_file_part b64decode part = inr (ValueError msg)).
Proof.
  unfold process_file_part. split_and!.
  - intros s decoded Hb Hs Hd. rewrite Hb.
    apply truthy_Some in Hs. rewrite Hs. simpl. by rewrite Hd.
  - intros s Hb Hs Hd. rewrite Hb.
    apply truthy_Some in Hs. rewrite Hs. simpl. rewrite Hd. by eexists.
  - intros u Hb Hu Hne. apply truthy_Some in Hne.
    rewrite Hu, Hne. destruct Hb as [-> | ->]; simpl; by eexists.
  - intros [-> | ->] [-> | ->]; simpl; by eexists.
Qed.

Lemma process_file_part_cases_witness :
  process_file_part b64decode_strict (Sample.file_of (Some "aGk=") None)
  = inl ["h"; "i"]%byte
  ∧ (∃ msg, process_file_part b64decode_strict
              (Sample.file_of (Some "a") None) = inr (ValueError msg))
  ∧ (∃ msg, process_file_part b64decode_strict
              (Sample.file_of None (Some "https://example.org/f.bin"))
            = inr (NotImplementedError msg))
  ∧ (∃ msg, process_file_part b64decode_strict (Sample.file_of None None)
            = inr (ValueError msg)).
Proof.
  split_and!.
  - apply (proj1 (process_file_part_cases b64decode_strict
                    (Sample.file_of (Some "aGk=") None)) "aGk=");
      [reflexivity | discriminate | reflexivity].
  - apply (proj1 (proj2 (process_file_part_cases b64decode_strict
                           (Sample.file_of (Some "a") None))) "a");
      [reflexivity | discriminate | reflexivity].
  - apply (proj1 (proj2 (proj2 (process_file_part_cases b64decode_strict
                    (Sample.file_of None (Some "https://example.org/f.bin")))))
             "https://example.org/f.bin");
      [left; reflexivity | reflexivity | discriminate].
  - apply (proj2 (proj2 (proj2 (process_file_part_cases b64decode_strict
                                  (Sample.file_of None None)))));
      left; reflexivity.
Defined.

(** * Further properties *)

(** ** What a handler finds in its context *)

(** A handler can read from the metadata of its context the skill id that
    the router resolved. *)
Lemma skill_id_of_metadata params :
  skill_id_of params = metadata (param_message params) ≫= (.!! "skill_id").
Proof.
  unfold skill_id_of. destruct (metadata (param_message params)) as [md |];
    [| done].
  simpl. case_bool_decide as Hmd; [| done]. by rewrite Hmd, lookup_empty.
Qed.

(** The task that [accept_message] hands over carries the session id in
    force and ends its history with the message of the request. *)
Lemma accepted_task_shape
    (m m1 : A2ATaskManager) (params : A2ATaskSendParams) (sid : string)
    (t1 : A2ATask) :
  accept_message params sid m = (m1, Ok (inl t1)) →
  task_sessionId t1 = Some sid
  ∧ last (task_history t1) = Some (param_message params).
Proof.
  intros Hacc.
  destruct (_tasks m !! param_id params) as [task |] eqn:Hstored.
  - destruct (decide (state (task_status task) ∈ accepting_states))
      as [Hst | Hst].
    + destruct (accept_message_stored params sid m task Hstored Hst)
        as (? & Hacc' & _).
      assert (t1 = with_status working
                     (with_sessionId (Some sid)
                        (with_history
                           (task_history task ++ [param_message params])
                           task))) as -> by congruence.
      simpl. split; [done | apply last_snoc].
    + destruct (accept_message_refused params sid m task Hstored Hst)
        as (? & Hacc' & _).
      congruence.
  - destruct (accept_message_new params sid m Hstored) as (? & Hacc' & _).
    assert (t1 = {| task_id := param_id params;
                    task_sessionId := Some sid;
                    task_status := working;
                    task_history := [param_message params];
                    task_artifacts := [];
                    task_metadata := param_metadata params |}) as ->
      by congruence.
    by simpl.
Qed.

(** X1.  Whenever [accept_message] accepts a request, for a new task as for
    a stored one, the context built on the returned task presents the
    request to the handler: the session id in force, the message of the
    request as the incoming message (whatever the history was), the metadata
    of that message, the skill id the router used, and the texts and files
    of that message in their order. *)
Theorem context_presents_request
    (m m1 : A2ATaskManager) (params : A2ATaskSendParams) (sid : string)
    (t1 : A2ATask) (has_queue : bool) :
  accept_message params sid m = (m1, Ok (inl t1)) →
  let context := {| context_task := t1; context_has_queue := has_queue |} in
  session_id context = Some sid
  ∧ incoming_message context = Some (param_message params)
  ∧ context_metadata context = metadata (param_message params)
  ∧ context_metadata context ≫= (.!! "skill_id") = skill_id_of params
  ∧ get_text_parts context
    = omap (λ part, match part with
                    | A2ATextPart text => Some text
                    | _ => None
                    end) (parts (param_message params))
  ∧ get_file_parts context
    = omap (λ part, match part with
                    | A2AFilePart file => Some file
                    | _ => None
                    end) (parts (param_message params)).
Proof.
  intros Hacc context.
  destruct (accepted_task_shape _ _ _ _ _ Hacc) as [Hsid Hlast].
  unfold session_id, context_metadata, get_text_parts, get_file_parts,
    incoming_message, context. simpl.
  rewrite Hlast, skill_id_of_metadata. by split_and!.
Qed.

Lemma context_presents_request_witness :
  let m := Sample.manager_with Sample.echo in
  let t1 :=
    {| task_id := "t1"; task_sessionId := Some "s1"; task_status := working;
       task_history := [Sample.hello]; task_artifacts := [];
       task_metadata := None |} in
  let context := {| context_task := t1; context_has_queue := false |} in
  incoming_message context = Some Sample.hello
  ∧ context_metadata context ≫= (.!! "skill_id") = Some "echo"
  ∧ get_text_parts context = ["hello"].
Proof.
  intros m t1 context.
  destruct (context_presents_request m (fst (accept_message Sample.send_hello
                                               "s1" m))
              Sample.send_hello "s1" t1 false eq_refl)
    as (_ & Hmsg & _ & Hskill & Htexts & _).
  split_and!; [exact Hmsg | exact Hskill | exact Htexts].
Defined.

(** ** What the requests do to the manager, field by field *)

Ltac unfold_methods :=
  unfold handle_task_send, handle_task_send_subscribe, handle_task_get,
    handle_task_cancel, _get_handler_for_task, accept_message,
    subscribe_except, copy_of_task, _get_task_lock, _add_to_dlq,
    increment_metric;
  run_manager.

Ltac split_cases :=
  repeat match goal with
         | |- context [match ?x with _ => _ end] =>
             lazymatch x with
             | context [match _ with _ => _ end] => fail
             | _ => destruct x eqn:?
             end
         end.

Lemma run_app steps1 steps2 m :
  run (steps1 ++ steps2) m = run steps2 (run steps1 m).
Proof. apply fold_left_app. Qed.

(** Induction on the life of a manager: a property of a manager that every
    step preserves holds at the end of every run. *)
Lemma run_preserves (P : A2ATaskManager → Prop) :
  (∀ st m, P m → P (step st m)) →
  ∀ steps m, P m → P (run steps m).
Proof.
  intros Hstep steps. induction steps as [| st steps IH]; intros m Hm; [done |].
  apply IH, Hstep, Hm.
Qed.

(** A request leaves the router alone and keeps the locks; it leaves the
    registry and the counter of received tasks alone too, unless it is a
    send that stores a new task (one more task received) or re-enters a
    stored one. *)
Lemma serve_effect rq m :
  router (serve rq m) = router m
  ∧ _task_locks m ⊆ _task_locks (serve rq m)
  ∧ ((_tasks (serve rq m) = _tasks m
      ∧ metric "received" (serve rq m) = metric "received" m)
     ∨ ∃ params sid,
         param_id params ∈ _task_locks (serve rq m)
         ∧ ((_tasks m !! param_id params = None
             ∧ _tasks (serve rq m)
               = <[param_id params :=
                    {| task_id := param_id params;
                       task_sessionId := Some sid;
                       task_status := working;
                       task_history := [param_message params];
                       task_artifacts := [];
                       task_metadata := param_metadata params |}]> (_tasks m)
             ∧ metric "received" (serve rq m) = metric "received" m + 1)
            ∨ ∃ task,
                _tasks m !! param_id params = Some task
                ∧ state (task_status task) ∈ accepting_states
                ∧ _tasks (serve rq m)
                  = <[param_id params :=
                       with_status working
                         (with_sessionId (Some sid)
                            (with_history
                               (task_history task ++ [param_message params])
                               task))]> (_tasks m)
                ∧ metric "received" (serve rq m) = metric "received" m)).
Proof.
  split; [| split].
  - destruct rq; simpl; unfold_methods; simpl; split_cases; simpl in *;
      try reflexivity; simplify_eq; reflexivity.
  - destruct rq; simpl; unfold_methods; simpl; split_cases; simpl in *;
      try set_solver; simplify_eq; simpl; set_solver.
  - destruct rq as [params uuid4 | params uuid4 | task_id n | task_id]; simpl.
    all: unfold_methods; simpl; split_cases; simpl in *; simplify_eq; simpl.
    all: unfold metric, kb_get_metric, kb_update_metric; simpl.
    all: rewrite ?lookup_insert_ne by done.
    all: try (left; split; reflexivity).
    all: right; exists params, (py_or (param_sessionId params) uuid4).
    all: (split; [set_solver |]).
    all: first
      [ left; split_and!;
        [assumption | reflexivity | by rewrite 1?lookup_insert_eq]
      | right; eexists; split_and!;
        [ eassumption
        | match goal with
          | H : negb (bool_decide _) = false |- _ =>
              apply negb_false_iff, bool_decide_eq_true_1 in H; exact H
          end
        | reflexivity
        | reflexivity ] ].
Qed.

(** ** Registrations *)

(** [get_handler] finds a handler exactly when the skill id is non-empty and
    has a specific handler, or there is a default handler. *)
Lemma get_handler_is_Some r query :
  is_Some (get_handler r query)
  ↔ (∃ s, query = Some s ∧ s ≠ "" ∧ is_Some (_handlers r !! s))
    ∨ is_Some (_default_handler r).
Proof.
  unfold get_handler. split.
  - destruct query as [s |]; simpl.
    + destruct (String.eqb_spec s "") as [-> | Hs]; simpl.
      * destruct (_default_handler r); [by right | by intros [? ?]].
      * destruct (_handlers r !! s) eqn:Hl; [left; by exists s |].
        destruct (_default_handler r); [by right | by intros [? ?]].
    + destruct (_default_handler r); [by right | by intros [? ?]].
  - intros [(s & -> & Hs & [h Hh]) | [d Hd]].
    + simpl. destruct (String.eqb_spec s ""); [done |]. simpl. by rewrite Hh.
    + rewrite Hd. by destruct (if truthy query then _ else _).
Qed.

Lemma register_keeps_handlers rg r :
  (∀ s, is_Some (_handlers r !! s) → is_Some (_handlers (register rg r) !! s))
  ∧ (is_Some (_default_handler r) → is_Some (_default_handler (register rg r))).
Proof.
  destruct rg as [skill_id handler | handler]; simpl;
    unfold register_handler, register_default_handler;
    destruct (iscoroutinefunction handler); simpl; split; try done.
  intros s Hs. destruct (decide (skill_id = s)) as [-> | Hne].
  - by rewrite lookup_insert_eq.
  - by rewrite lookup_insert_ne.
Qed.

Lemma step_keeps_routing st m query :
  is_Some (get_handler (router m) query) →
  is_Some (get_handler (router (step st m)) query).
Proof.
  destruct st as [rq | rg]; simpl.
  - by rewrite (proj1 (serve_effect rq m)).
  - rewrite !get_handler_is_Some.
    destruct (register_keeps_handlers rg (router m)) as [Hh Hd].
    intros [(s & -> & Hs & Hl) | Hdef]; [left | right; by apply Hd].
    exists s. split_and!; [done | done | by apply Hh].
Qed.

(** X2.  Nothing un-registers a handler: a skill id that resolves to a
    handler at some point of the life of a manager resolves to a handler at
    every later point, whatever requests are served and whatever handlers
    (asynchronous or not, specific or default) are registered meanwhile. *)
Theorem routing_is_never_lost
    (steps : list Step) (m : A2ATaskManager) (query : option string) :
  is_Some (get_handler (router m) query) →
  is_Some (get_handler (router (run steps m)) query).
Proof.
  revert m. induction steps as [| st steps IH]; intros m Hm; [done |].
  apply IH, step_keeps_routing, Hm.
Qed.

Lemma routing_is_never_lost_witness :
  is_Some (get_handler
             (router (run [Registering (RegisterHandler "echo" Sample.plain);
                           Serving (TasksSend Sample.send_hello Sample.uuid4);
                           Registering (RegisterDefaultHandler Sample.plain)]
                        (Sample.manager_with Sample.echo)))
             (Some "echo")).
Proof.
  apply (routing_is_never_lost _ (Sample.manager_with Sample.echo)).
  by eexists.
Defined.

(** X3.  The last asynchronous handler registered for a skill id is the one
    in force, whatever was registered for it before; the registration
    changes the resolution of no other skill id. *)
Theorem register_handler_last_wins
    (r : A2ATaskRouter) (skill_id : string) (first second : Callable)
    (query : option string) :
  iscoroutinefunction second = true →
  register_handler skill_id second (register_handler skill_id first r)
  = register_handler skill_id second r
  ∧ (skill_id ≠ "" →
       get_handler (register_handler skill_id second r) (Some skill_id)
       = Some second)
  ∧ (query ≠ Some skill_id →
       get_handler (register_handler skill_id second r) query
       = get_handler r query).
Proof.
  intros Hasync. split_and!.
  - unfold register_handler. rewrite Hasync. simpl.
    destruct (iscoroutinefunction first); simpl; [| done].
    by rewrite insert_insert_eq.
  - intros Hne. apply get_handler_specific; [done |].
    unfold register_handler. rewrite Hasync. simpl. apply lookup_insert_eq.
  - intros Hq. unfold register_handler. rewrite Hasync. simpl.
    unfold get_handler. simpl.
    destruct query as [s |]; simpl; [| done].
    rewrite lookup_insert_ne by congruence. done.
Qed.

Lemma register_handler_last_wins_witness :
  register_handler "echo" Sample.crash
    (register_handler "echo" Sample.echo A2ATaskRouter_init)
  = register_handler "echo" Sample.crash A2ATaskRouter_init
  ∧ get_handler (register_handler "echo" Sample.crash
                   (register_handler "echo" Sample.echo A2ATaskRouter_init))
      (Some "echo") = Some Sample.crash.
Proof.
  destruct (register_handler_last_wins A2ATaskRouter_init "echo" Sample.echo
              Sample.crash None eq_refl) as (Hsame & Hget & _).
  split; [exact Hsame |]. rewrite Hsame. apply Hget. discriminate.
Defined.

(** ** Invariants of the registry *)

Lemma step_effect st m :
  _task_locks m ⊆ _task_locks (step st m)
  ∧ ((_tasks (step st m) = _tasks m
      ∧ metric "received" (step st m) = metric "received" m)
     ∨ ∃ params sid,
         param_id params ∈ _task_locks (step st m)
         ∧ ((_tasks m !! param_id params = None
             ∧ _tasks (step st m)
               = <[param_id params :=
                    {| task_id := param_id params;
                       task_sessionId := Some sid;
                       task_status := working;
                       task_history := [param_message params];
                       task_artifacts := [];
                       task_metadata := param_metadata params |}]> (_tasks m)
             ∧ metric "received" (step st m) = metric "received" m + 1)
            ∨ ∃ task,
                _tasks m !! param_id params = Some task
                ∧ state (task_status task) ∈ accepting_states
                ∧ _tasks (step st m)
                  = <[param_id params :=
                       with_status working
                         (with_sessionId (Some sid)
                            (with_history
                               (task_history task ++ [param_message params])
                               task))]> (_tasks m)
                ∧ metric "received" (step st m) = metric "received" m)).
Proof.
  destruct st as [rq | rg]; simpl.
  - apply serve_effect.
  - split; [done |]. by left.
Qed.

(** X4.  In every manager that a started manager becomes, a stored task
    carries the id it is stored under, has a history that is not empty, and
    owns a task lock. *)
Theorem stored_tasks_well_formed
    (knowledge_base : KnowledgeBase) (steps : list Step)
    (id : string) (t : A2ATask) :
  _tasks (run steps (started knowledge_base)) !! id = Some t →
  task_id t = id
  ∧ task_history t ≠ []
  ∧ id ∈ _task_locks (run steps (started knowledge_base)).
Proof.
  revert id t.
  apply (run_preserves (λ m, ∀ id t, _tasks m !! id = Some t →
           task_id t = id ∧ task_history t ≠ [] ∧ id ∈ _task_locks m));
    [| done].
  intros st m IH id t.
  destruct (step_effect st m)
    as [Hlocks [[Htasks _] | (params & sid & Hlock & H)]].
  - rewrite Htasks. intros Hstored.
    destruct (IH id t Hstored) as (? & ? & ?). auto.
  - assert (Hold : ∀ t', _tasks m !! id = Some t' →
                         task_id t' = id ∧ task_history t' ≠ []
                         ∧ id ∈ _task_locks (step st m)).
    { intros t' Ht'. destruct (IH id t' Ht') as (? & ? & ?). auto. }
    destruct H as [(_ & Htasks & _) | (task & Hstored & _ & Htasks & _)];
      rewrite Htasks;
      (destruct (decide (param_id params = id)) as [<- | Hne];
       [rewrite lookup_insert_eq; intros [= <-]; simpl
       | rewrite lookup_insert_ne by done; apply Hold]).
    + done.
    + destruct (IH _ _ Hstored) as (? & _ & _).
      split_and!; [done | by destruct (task_history task) | done].
Qed.

Lemma stored_tasks_well_formed_witness :
  let m := run [Serving (TasksSend Sample.send_hello Sample.uuid4);
                Serving (TasksCancel "t1");
                Registering (RegisterHandler "echo" Sample.echo);
                Serving (TasksSendSubscribe Sample.send_hello Sample.uuid4);
                Serving (TasksSend Sample.send_again Sample.uuid4)]
             (started ∅) in
  let t :=
    {| task_id := "t1"; task_sessionId := Some "s2"; task_status := working;
       task_history := [Sample.hello; Sample.again]; task_artifacts := [];
       task_metadata := None |} in
  _tasks m !! "t1" = Some t
  ∧ task_id t = "t1" ∧ task_history t ≠ [] ∧ "t1" ∈ _task_locks m.
Proof.
  intros m t. split; [reflexivity |].
  apply (stored_tasks_well_formed ∅ _ "t1" t). reflexivity.
Defined.

(** Every task stored in a manager that a started manager has become is
    in state ["working"] and has no artifact. *)
Lemma run_started_working
    (knowledge_base : KnowledgeBase) (steps : list Step)
    (id : string) (t : A2ATask) :
  _tasks (run steps (started knowledge_base)) !! id = Some t →
  task_status t = working ∧ task_artifacts t = [].
Proof.
  revert id t.
  apply (run_preserves (λ m, ∀ id t, _tasks m !! id = Some t →
           task_status t = working ∧ task_artifacts t = [])); [| done].
  intros st m IH id t.
  destruct (step_effect st m)
    as [_ [[Htasks _] | (params & sid & _ & H)]].
  - rewrite Htasks. apply IH.
  - destruct H as [(_ & Htasks & _) | (task & Hstored & _ & Htasks & _)];
      rewrite Htasks;
      (destruct (decide (param_id params = id)) as [<- | Hne];
       [rewrite lookup_insert_eq; intros [= <-]; simpl
       | rewrite lookup_insert_ne by done; apply IH]).
    + done.
    + by destruct (IH _ _ Hstored).
Qed.

(** X5.  No request ever commits an outcome: in every manager that a
    started manager becomes, each stored task is in state ["working"], with
    no status message and no artifact. *)
Theorem stored_tasks_stay_working
    (knowledge_base : KnowledgeBase) (steps : list Step)
    (id : string) (t : A2ATask) :
  _tasks (run steps (started knowledge_base)) !! id = Some t →
  task_status t = working ∧ task_artifacts t = [].
Proof. apply run_started_working. Qed.

Lemma stored_tasks_stay_working_witness :
  let m := run [Registering (RegisterHandler "echo" Sample.echo);
                Serving (TasksSend Sample.send_hello Sample.uuid4);
                Serving (TasksCancel "t1");
                Serving (TasksSendSubscribe Sample.send_again Sample.uuid4)]
             (started ∅) in
  let t :=
    {| task_id := "t1"; task_sessionId := Some "s2"; task_status := working;
       task_history := [Sample.hello; Sample.again]; task_artifacts := [];
       task_metadata := None |} in
  _tasks m !! "t1" = Some t
  ∧ task_status t = working ∧ task_artifacts t = [].
Proof.
  intros m t. split; [reflexivity |].
  apply (stored_tasks_stay_working ∅
           [Registering (RegisterHandler "echo" Sample.echo);
            Serving (TasksSend Sample.send_hello Sample.uuid4);
            Serving (TasksCancel "t1");
            Serving (TasksSendSubscribe Sample.send_again Sample.uuid4)]
           "t1" t).
  reflexivity.
Defined.

(** X6.  Hence routing is the only way a [tasks/send] fails on a manager
    that a started manager has become: a request that routes to a handler
    is never refused for the state of its task, and returns the stored
    task. *)
Theorem routed_send_returns_task
    (knowledge_base : KnowledgeBase) (steps : list Step)
    (params : A2ATaskSendParams) (uuid4 : string) (handler : Callable) :
  let m := run steps (started knowledge_base) in
  get_handler (router m) (skill_id_of params) = Some handler →
  ∃ t,
    snd (handle_task_send params uuid4 m) = Ok t
    ∧ _tasks (fst (handle_task_send params uuid4 m)) !! param_id params
      = Some t
    ∧ last (task_history t) = Some (param_message params).
Proof.
  intros m Hroute.
  assert (Hst : ∀ task, _tasks m !! param_id params = Some task →
                        state (task_status task) ∈ accepting_states).
  { intros task Hstored.
    destruct (run_started_working _ _ _ _ Hstored) as [-> _].
    apply (bool_decide_unpack _). vm_compute. exact I. }
  destruct (accept_message_accepts params
              (py_or (param_sessionId params) uuid4) m Hst)
    as (m1 & t1 & Hacc & _ & Hl & _).
  destruct (handle_task_send_accepted _ _ _ _ _ _ Hroute Hacc Hl)
    as (m2 & Hsend & Htasks2 & _).
  exists t1. rewrite Hsend. simpl. rewrite Htasks2.
  split_and!; [done | done |].
  by destruct (accepted_task_shape _ _ _ _ _ Hacc) as [_ ?].
Qed.

Lemma routed_send_returns_task_witness :
  let m := run [Registering (RegisterHandler "echo" Sample.crash);
                Serving (TasksSend Sample.send_hello Sample.uuid4);
                Serving (TasksCancel "t1")]
             (started ∅) in
  ∃ t,
    snd (handle_task_send Sample.send_again Sample.uuid4 m) = Ok t
    ∧ _tasks (fst (handle_task_send Sample.send_again Sample.uuid4 m)) !! "t1"
      = Some t
    ∧ last (task_history t) = Some Sample.again.
Proof.
  intros m.
  apply (routed_send_returns_task ∅
           [Registering (RegisterHandler "echo" Sample.crash);
            Serving (TasksSend Sample.send_hello Sample.uuid4);
            Serving (TasksCancel "t1")]
           Sample.send_again Sample.uuid4 Sample.crash).
  reflexivity.
Defined.

(** X7.  The counter of received tasks counts the registry: after any life
    of a started manager, it has grown by the number of stored tasks (as
    long as only the manager writes it). *)
Theorem received_counts_stored_tasks
    (knowledge_base : KnowledgeBase) (steps : list Step) :
  metric "received" (run steps (started knowledge_base))
  = kb_get_metric knowledge_base "a2a_tasks" "received" 0
    + Z.of_nat (size (_tasks (run steps (started knowledge_base)))).
Proof.
  apply (run_preserves (λ m, metric "received" m
           = kb_get_metric knowledge_base "a2a_tasks" "received" 0
             + Z.of_nat (size (_tasks m)))).
  - intros st m IH.
    destruct (step_effect st m)
      as [_ [[Htasks Hmetric] | (params & sid & _ & H)]].
    + by rewrite Htasks, Hmetric.
    + destruct H as [(Hnew & Htasks & Hmetric)
                    | (task & Hstored & _ & Htasks & Hmetric)];
        rewrite Htasks, Hmetric, IH.
      * rewrite map_size_insert_None by done. lia.
      * by rewrite map_size_insert_Some by (by eexists).
  - unfold started, metric. simpl. rewrite map_size_empty. lia.
Qed.

(** X8.  The history of a task only grows and a task never leaves the
    registry: a task stored at some point is stored at every later point,
    under the same id, with the same metadata and with a history that
    extends the one it had. *)
Theorem history_only_grows
    (steps : list Step) (m : A2ATaskManager) (id : string) (t : A2ATask) :
  _tasks m !! id = Some t →
  ∃ t',
    _tasks (run steps m) !! id = Some t'
    ∧ task_history t `prefix_of` task_history t'
    ∧ task_id t' = task_id t
    ∧ task_metadata t' = task_metadata t.
Proof.
  revert m t. induction steps as [| st steps IH]; intros m t Hstored.
  - by exists t.
  - assert (Hstep : ∃ t1, _tasks (step st m) !! id = Some t1
                          ∧ task_history t `prefix_of` task_history t1
                          ∧ task_id t1 = task_id t
                          ∧ task_metadata t1 = task_metadata t).
    { destruct (step_effect st m)
        as [_ [[Htasks _] | (params & sid & _ & H)]].
      - exists t. by rewrite Htasks.
      - destruct H as [(Hnew & Htasks & _) | (task & Hold & _ & Htasks & _)];
          rewrite Htasks;
          (destruct (decide (param_id params = id)) as [<- | Hne];
           [rewrite lookup_insert_eq
           | rewrite lookup_insert_ne by done; by exists t]).
        + congruence.
        + assert (task = t) as -> by congruence.
          eexists. split; [reflexivity |]. simpl.
          split_and!; [by apply prefix_app_r | done | done]. }
    destruct Hstep as (t1 & Hstored1 & Hpre1 & Hid1 & Hmd1).
    destruct (IH _ _ Hstored1) as (t' & Hstored' & Hpre' & Hid' & Hmd').
    exists t'. split_and!; [done | by etrans | congruence | congruence].
Qed.

Lemma history_only_grows_witness :
  let m := Sample.after_send Sample.echo in
  ∃ t',
    _tasks (run [Serving (TasksCancel "t1");
                 Serving (TasksSend Sample.send_again Sample.uuid4);
                 Serving (TasksGet "t1" 0)] m) !! "t1" = Some t'
    ∧ [Sample.hello] `prefix_of` task_history t'.
Proof.
  intros m.
  destruct (history_only_grows
              [Serving (TasksCancel "t1");
               Serving (TasksSend Sample.send_again Sample.uuid4);
               Serving (TasksGet "t1" 0)] m "t1"
              {| task_id := "t1"; task_sessionId := Some Sample.uuid4;
                 task_status := working; task_history := [Sample.hello];
                 task_artifacts := []; task_metadata := None |} eq_refl)
    as (t' & Hstored & Hprefix & _).
  by exists t'.
Defined.

(** ** Invariants of the dead-letter queue *)

Lemma py_or_nonempty x d : d ≠ "" → py_or x d ≠ "".
Proof.
  intros Hd. destruct x as [s |]; simpl; [| done].
  by destruct (String.eqb_spec s "").
Qed.

Lemma serve_dlq_effect rq m :
  ∃ entries,
    a2a_dlq (serve rq m) = a2a_dlq m ++ entries
    ∧ Forall well_filed entries
    ∧ ((entries = []
        ∧ kb (serve rq m) !! ("a2a_tasks", "dlq_count")
          = kb m !! ("a2a_tasks", "dlq_count"))
       ∨ (entries ≠ []
          ∧ kb (serve rq m) !! ("a2a_tasks", "dlq_count")
            = Some (Z.of_nat (length (a2a_dlq (serve rq m)))))).
Proof.
  destruct rq as [params uuid4 | params uuid4 | task_id n | task_id]; simpl.
  all: unfold_methods; simpl; split_cases; simpl in *; simplify_eq; simpl.
  all: unfold kb_update_metric; rewrite ?lookup_insert_ne by done.
  all: rewrite <- ?app_assoc; simpl.
  all: first
    [ exists []; rewrite app_nil_r; split_and!;
      [reflexivity | constructor | left; split; reflexivity]
    | eexists; split_and!;
      [ reflexivity
      | repeat constructor; auto; solve [done | by apply String.eqb_neq]
      | right; split; [done | by rewrite 1?lookup_insert_eq] ] ].
Qed.

Lemma step_dlq_effect st m :
  ∃ entries,
    a2a_dlq (step st m) = a2a_dlq m ++ entries
    ∧ Forall well_filed entries
    ∧ ((entries = []
        ∧ kb (step st m) !! ("a2a_tasks", "dlq_count")
          = kb m !! ("a2a_tasks", "dlq_count"))
       ∨ (entries ≠ []
          ∧ kb (step st m) !! ("a2a_tasks", "dlq_count")
            = Some (Z.of_nat (length (a2a_dlq (step st m)))))).
Proof.
  destruct st as [rq | rg]; [apply serve_dlq_effect |].
  exists []. simpl. rewrite app_nil_r. split_and!; [done | done | by left].
Qed.

(** X9.  The metric [dlq_count] is the length of the dead-letter queue:
    after any life of a started manager it holds that length as soon as the
    queue is not empty, and is as it was at the start while the queue is
    empty (as long as only the manager writes it). *)
Theorem dlq_count_is_queue_length
    (knowledge_base : KnowledgeBase) (steps : list Step) :
  let m := run steps (started knowledge_base) in
  match a2a_dlq m with
  | [] => kb m !! ("a2a_tasks", "dlq_count")
          = knowledge_base !! ("a2a_tasks", "dlq_count")
  | _ :: _ => kb m !! ("a2a_tasks", "dlq_count")
              = Some (Z.of_nat (length (a2a_dlq m)))
  end.
Proof.
  apply (run_preserves (λ m,
           match a2a_dlq m with
           | [] => kb m !! ("a2a_tasks", "dlq_count")
                   = knowledge_base !! ("a2a_tasks", "dlq_count")
           | _ :: _ => kb m !! ("a2a_tasks", "dlq_count")
                       = Some (Z.of_nat (length (a2a_dlq m)))
           end)); [| done].
  intros st m IH.
  destruct (step_dlq_effect st m)
    as (entries & Hdlq & _ & [[-> Hkb] | [Hne Hkb]]).
  - rewrite app_nil_r in Hdlq. by rewrite Hdlq, Hkb.
  - rewrite Hkb. destruct (a2a_dlq (step st m)) as [| e l]; [| done].
    symmetry in Hdlq. by apply app_eq_nil in Hdlq as [_ ->].
Qed.

(** X10.  Every entry of the dead-letter queue is filed under a task id that
    is not empty (the id ["unknown"] stands in for an empty one) and under
    the method its reason belongs to; a request that finds no handler is
    filed under ["tasks/send"], also when it is a [tasks/sendSubscribe]. *)
Theorem dead_letters_well_filed
    (knowledge_base : KnowledgeBase) (steps : list Step) :
  Forall well_filed (a2a_dlq (run steps (started knowledge_base))).
Proof.
  apply (run_preserves (λ m, Forall well_filed (a2a_dlq m)));
    [| by constructor].
  intros st m IH.
  destruct (step_dlq_effect st m) as (entries & -> & Hentries & _).
  by apply Forall_app.
Qed.

(** The entry of an unroutable streaming request. *)
Example unroutable_stream_filed_as_send :
  a2a_dlq (run [Serving (TasksSendSubscribe Sample.send_hello Sample.uuid4)]
             (started ∅))
  = [("t1", "tasks/send", NoSuitableHandlerFound (Some "echo"))].
Proof. reflexivity. Qed.

(** ** The queue of a streaming call *)

(** X11.  Every accepted streaming call, whatever its handler does, fills
    the queue with: first the manager's own ["working"] event, not final;
    then one update for each call the handler made on its context, in
    order and none of them an error; last a final status event, in state
    ["failed"] when the handler raised and in the state of the result when
    it returned one whose message text can be read. *)
Theorem stream_ends_with_final_event
    (m : A2ATaskManager) (params : A2ATaskSendParams) (uuid4 : string)
    (handler : Callable) :
  get_handler (router m) (skill_id_of params) = Some handler →
  (∀ task, _tasks m !! param_id params = Some task →
           state (task_status task) ∈ accepting_states) →
  ∃ context first middle final,
    context_has_queue context = true
    ∧ incoming_message context = Some (param_message params)
    ∧ snd (handle_task_send_subscribe params uuid4 m)
      = Ok (StatusUpdate first :: middle ++ [StatusUpdate final])
    ∧ state (status_event_status first) = "working"
    ∧ status_event_final first = false
    ∧ middle = perform_all context (fst (call handler context))
    ∧ length middle = length (fst (call handler context))
    ∧ Forall (λ item, ∀ err, item ≠ QueuedError err) middle
    ∧ status_event_final final = true
    ∧ (∀ e, snd (call handler context) = Raise e →
         state (status_event_status final) = "failed")
    ∧ (∀ result text,
         snd (call handler context) = Return result →
         final_message_text (final_status result) = inl text →
         state (status_event_status final) = state (final_status result)).
Proof.
  intros Hroute Hst.
  destruct (accept_message_accepts params
              (py_or (param_sessionId params) uuid4) m Hst)
    as (m1 & t1 & Hacc & _).
  destruct (handle_task_send_subscribe_accepted _ _ _ _ _ _ Hroute Hacc)
    as (m2 & Hsub & _).
  destruct (accepted_task_shape _ _ _ _ _ Hacc) as [_ Hmsg].
  set (context := {| context_task := t1; context_has_queue := true |}) in *.
  destruct (perform_all_with_queue context (fst (call handler context))
              eq_refl) as [Hlen Hall].
  exists context. rewrite Hsub. simpl.
  destruct (snd (call handler context)) as [result | e] eqn:Hout; simpl.
  - destruct (final_message_text (final_status result)) as [text | e] eqn:Htext;
      simpl; eexists _, _, _; split_and!; try done.
    + intros ? ? [= <-] _. done.
    + intros ? ? [= <-] ?. congruence.
  - eexists _, _, _. split_and!; try done.
Qed.

Lemma stream_ends_with_final_event_witness :
  ∃ first middle final,
    snd (handle_task_send_subscribe Sample.send_hello Sample.uuid4
           (Sample.manager_with Sample.crash))
    = Ok (StatusUpdate first :: middle ++ [StatusUpdate final])
    ∧ status_event_final final = true.
Proof.
  destruct (stream_ends_with_final_event (Sample.manager_with Sample.crash)
              Sample.send_hello Sample.uuid4 Sample.crash eq_refl)
    as (context & first & middle & final & _ & _ & Hq & _ & _ & _ & _ & _
        & Hfinal & _).
  { intros task Hstored. vm_compute in Hstored. discriminate. }
  by exists first, middle, final.
Defined.

(** ** The commit, were it awaited *)

(** X12.  The body of [_update_task_state] never adds a task to the registry
    nor removes one, touches no task but the one named, keeps the id, the
    session id and the metadata of that task and extends its history.  A
    status that it commits carries the reading of the clock at the commit.
    Hence, without a message to append, of two commits of the same status
    and artifacts the later one is what shows (the earlier one leaves no
    trace), and the commit is idempotent only up to that reading: it does
    not depend on the clock when no status is given, and two commits of a
    status at different readings differ. *)
Theorem update_task_state_frame_and_last_wins
    (m : A2ATaskManager) (id : string) (status : option A2ATaskState)
    (history_append : option A2AMessage)
    (artifacts : option (list A2AArtifact)) (replace_artifacts : bool)
    (now later : Z) :
  let commit := _update_task_state id status history_append artifacts
                  replace_artifacts in
  dom (_tasks (fst (commit now m))) = dom (_tasks m)
  ∧ (∀ other, other ≠ id →
       _tasks (fst (commit now m)) !! other = _tasks m !! other)
  ∧ (∀ t, _tasks m !! id = Some t →
       ∃ t', _tasks (fst (commit now m)) !! id = Some t'
             ∧ task_id t' = task_id t
             ∧ task_sessionId t' = task_sessionId t
             ∧ task_metadata t' = task_metadata t
             ∧ task_history t `prefix_of` task_history t'
             ∧ task_status t'
               = match status with
                 | Some status =>
                     {| state := state status; message := message status;
                        timestamp := assigned_at now |}
                 | None => task_status t
                 end)
  ∧ (history_append = None →
       fst (commit later (fst (commit now m))) = fst (commit later m))
  ∧ (status = None → fst (commit later m) = fst (commit now m))
  ∧ (is_Some status → is_Some (_tasks m !! id) → now ≠ later →
       fst (commit later m) ≠ fst (commit now m)).
Proof.
  intros commit. subst commit. unfold _update_task_state. run_manager. simpl.
  destruct (_tasks m !! id) as [t |] eqn:Hstored; simpl.
  - split_and!.
    + rewrite dom_insert_L.
      apply subseteq_union_1_L, singleton_subseteq_l, elem_of_dom. by eexists.
    + intros other Hne. by rewrite lookup_insert_ne.
    + intros ? [= <-]. rewrite lookup_insert_eq. eexists. split; [done |].
      destruct status, history_append,
        (bool_decide (is_Some artifacts) || replace_artifacts); simpl;
        split_and!; try done; by apply prefix_app_r.
    + intros ->. rewrite lookup_insert_eq. simpl.
      unfold set_tasks. simpl. rewrite insert_insert_eq.
      destruct status, (bool_decide (is_Some artifacts) || replace_artifacts);
        reflexivity.
    + by intros ->.
    + intros [st ->] _ Hne Heq.
      apply (f_equal (λ m, task_status <$> _tasks m !! id)) in Heq.
      simpl in Heq. rewrite !lookup_insert_eq in Heq.
      destruct history_append,
        (bool_decide (is_Some artifacts) || replace_artifacts);
        simpl in Heq; congruence.
  - split_and!; try done. by rewrite Hstored.
Qed.

Lemma update_task_state_frame_and_last_wins_witness :
  let canceled :=
    {| state := "canceled"; message := None; timestamp := when_built |} in
  let commit := _update_task_state "t1" (Some canceled) None None true in
  let m := Sample.holding "working" Sample.echo in
  fst (commit 20 (fst (commit 10 m))) = fst (commit 20 m)
  ∧ fst (commit 20 m) ≠ fst (commit 10 m)
  ∧ (task_status <$> _tasks (fst (commit 10 m)) !! "t1")
    = Some {| state := "canceled"; message := None;
              timestamp := assigned_at 10 |}
  ∧ task_artifacts <$> _tasks (fst (commit 10 m)) !! "t1" = Some [].
Proof.
  intros canceled commit m. split_and!.
  - apply (proj1 (proj2 (proj2 (proj2
             (update_task_state_frame_and_last_wins m "t1" (Some canceled)
                None None true 10 20))))).
    reflexivity.
  - apply (proj2 (proj2 (proj2 (proj2 (proj2
             (update_task_state_frame_and_last_wins m "t1" (Some canceled)
                None None true 10 20)))))).
    + by eexists.
    + by eexists.
    + discriminate.
  - reflexivity.
  - reflexivity.
Defined.

(** ** The JSON-RPC entry point *)

Ltac unfold_entry_point request :=
  unfold handle_a2a_request;
  destruct (String.eqb_spec (rpc_method request) "tasks/send");
    [| destruct (String.eqb_spec (rpc_method request) "tasks/sendSubscribe");
       [| destruct (String.eqb_spec (rpc_method request) "tasks/get");
          [| destruct (String.eqb_spec (rpc_method request) "tasks/cancel")]]];
  unfold respond, handle_task_get_any, handle_task_cancel_any,
    handle_task_send, handle_task_get, handle_task_cancel,
    _get_handler_for_task, accept_message, copy_of_task, _get_task_lock,
    _add_to_dlq, increment_metric; run_manager; simpl.

(** X13.  The entry point answers every request, in every state of the
    manager, under the id of the request, and its errors fall in two
    classes: HTTP 400 with one of the protocol codes -32601, -32602, -32001
    and -32004, or HTTP 500 with code -32603.  The latter is given in three
    cases only: the parameters of a send are refused by validation; the id
    of a get or a cancel is an array or an object, which cannot be hashed;
    the task of a get is stored and [historyLength] is present and is
    neither an integer nor a boolean.  (The values of the metadata of a
    message are strings here, as everywhere in this file.) *)
Theorem entry_point_error_classes
    (request : A2AJsonRpcRequest) (uuid4 : string) (m : A2ATaskManager) :
  let params := rpc_params request in
  let task_id := default (JScalar JNull) (rpc_task_id params) in
  let history := default (JScalar (JInt 0)) (rpc_historyLength params) in
  match snd (handle_a2a_request request uuid4 m) with
  | A2AJsonRpcSuccessResponse id _ => id = rpc_id request
  | EventSourceResponse _ => rpc_method request = "tasks/sendSubscribe"
  | JSONResponse status_code id code _ =>
      id = rpc_id request
      ∧ ((status_code = 400 ∧ code ∈ [-32601; -32602; -32001; -32004])
         ∨ (status_code = 500 ∧ code = -32603
            ∧ ((rpc_method request ∈ ["tasks/send"; "tasks/sendSubscribe"]
                ∧ rpc_send_params params = None)
               ∨ (rpc_method request ∈ ["tasks/get"; "tasks/cancel"]
                  ∧ unhashable task_id = true)
               ∨ (rpc_method request = "tasks/get"
                  ∧ as_int history = None
                  ∧ is_Some (rpc_historyLength params)
                  ∧ ∃ s, task_id = JScalar (JString s)
                         ∧ is_Some (_tasks m !! s)))))
  end.
Proof.
  intros params task_id history. subst params task_id history.
  unfold_entry_point request.
  all: split_cases; simpl in *; simplify_map_eq; simpl.
  all: try done.
  all: split; [done |].
  all: try (left; split; [done |]; set_solver).
  all: right; split_and!; try done.
  all: try (left; split; [set_solver | done]).
  all: right.
  all: try (left; split; [set_solver | done]).
  all: right; split_and!; try done; try by eexists.
  all: by destruct (rpc_historyLength (rpc_params request)).
Qed.

(** X23.  A [tasks/get] for a stored task whose [historyLength] is null, a
    string, an array or an object is answered with HTTP 500 and code
    -32603: the value is passed on as it is, and the comparison with zero
    raises a [TypeError] in [handle_task_get].  The registry is unchanged;
    a missing [historyLength] is read as zero and is no error. *)
Theorem ill_typed_history_length_is_internal_error
    (request : A2AJsonRpcRequest) (uuid4 : string) (m : A2ATaskManager)
    (s : string) (task : A2ATask) (v : Json) :
  rpc_method request = "tasks/get" →
  rpc_task_id (rpc_params request) = Some (JScalar (JString s)) →
  s ≠ "" →
  _tasks m !! s = Some task →
  rpc_historyLength (rpc_params request) = Some v →
  as_int v = None →
  (∀ x, v ≠ JScalar (JFloat x)) →
  snd (handle_a2a_request request uuid4 m)
  = JSONResponse 500 (rpc_id request) (-32603)
      "Internal server error: TypeError"
  ∧ _tasks (fst (handle_a2a_request request uuid4 m)) = _tasks m.
Proof.
  intros Hm Hid Hs Hstored Hh Hint Hfloat.
  unfold handle_a2a_request. rewrite Hm, Hid, Hh. simpl.
  apply String.eqb_neq in Hs. rewrite Hs. simpl.
  unfold handle_task_get_any. rewrite Hint.
  unfold _get_task_lock. run_manager. simpl. rewrite Hstored.
  destruct v as [[| b | n | x | t] | e | e]; try done.
  by destruct (Hfloat x).
Qed.

Lemma ill_typed_history_length_is_internal_error_witness :
  let request :=
    {| rpc_id := "7"; rpc_method := "tasks/get";
       rpc_params := {| rpc_task_id := Some (JScalar (JString "t1"));
                        rpc_historyLength := Some (JScalar JNull);
                        rpc_send_params := None |} |} in
  let m := Sample.after_send Sample.echo in
  snd (handle_a2a_request request Sample.uuid4 m)
  = JSONResponse 500 "7" (-32603) "Internal server error: TypeError"
  ∧ _tasks (fst (handle_a2a_request request Sample.uuid4 m)) = _tasks m.
Proof.
  intros request m.
  apply (ill_typed_history_length_is_internal_error request Sample.uuid4 m
           "t1"
           {| task_id := "t1"; task_sessionId := Some Sample.uuid4;
              task_status := working; task_history := [Sample.hello];
              task_artifacts := []; task_metadata := None |}
           (JScalar JNull)).
  - reflexivity.
  - reflexivity.
  - discriminate.
  - reflexivity.
  - reflexivity.
  - reflexivity.
  - discriminate.
Defined.

(** X14.  A request that is answered with an error has not changed the
    registry; it has not changed the dead-letter queue either, unless the
    error is -32601 (a request that found no handler is filed there). *)
Theorem error_answers_leave_registry
    (request : A2AJsonRpcRequest) (uuid4 : string) (m : A2ATaskManager)
    (status_code : Z) (id : string) (code : Z) (msg : string) :
  snd (handle_a2a_request request uuid4 m)
  = JSONResponse status_code id code msg →
  _tasks (fst (handle_a2a_request request uuid4 m)) = _tasks m
  ∧ (code ≠ -32601 →
       a2a_dlq (fst (handle_a2a_request request uuid4 m)) = a2a_dlq m).
Proof.
  unfold_entry_point request.
  all: split_cases; simpl in *; simplify_map_eq; simpl.
  all: intros H; inversion H; subst.
  all: split; [reflexivity | by intros ?].
Qed.

Lemma error_answers_leave_registry_witness :
  let request :=
    {| rpc_id := "7"; rpc_method := "tasks/cancel";
       rpc_params := {| rpc_task_id := Some (JScalar (JString "t9"));
                        rpc_historyLength := None;
                        rpc_send_params := None |} |} in
  let m := Sample.after_send Sample.echo in
  snd (handle_a2a_request request Sample.uuid4 m)
  = JSONResponse 400 "7" (-32001) "Task t9 not found"
  ∧ _tasks (fst (handle_a2a_request request Sample.uuid4 m)) = _tasks m
  ∧ a2a_dlq (fst (handle_a2a_request request Sample.uuid4 m)) = a2a_dlq m.
Proof.
  intros request m. split; [reflexivity |].
  destruct (error_answers_leave_registry request Sample.uuid4 m
              400 "7" (-32001) "Task t9 not found" eq_refl) as [Htasks Hdlq].
  split; [exact Htasks | apply Hdlq; discriminate].
Defined.

(** ** Sending, then reading *)

Lemma py_slice_from_minus_one {A} (l : list A) (x : A) :
  last l = Some x → py_slice_from (-1) l = [x].
Proof.
  intros Hlast. apply last_Some in Hlast as [l' ->].
  unfold py_slice_from. rewrite length_app. simpl.
  rewrite Z.max_l by lia.
  replace (Z.to_nat (-1 + Z.of_nat (length l' + 1))) with (length l') by lia.
  apply drop_app_length.
Qed.

(** X15.  What is sent can be read back: after an accepted [tasks/send],
    [tasks/get] on the same id with [historyLength = 1] returns a task
    whose history is exactly the message just sent, under the session id
    of the request (or the generated one). *)
Theorem send_then_get_returns_message
    (m : A2ATaskManager) (params : A2ATaskSendParams) (uuid4 : string)
    (handler : Callable) :
  get_handler (router m) (skill_id_of params) = Some handler →
  (∀ task, _tasks m !! param_id params = Some task →
           state (task_status task) ∈ accepting_states) →
  ∃ copy,
    snd (handle_task_get (param_id params) 1
           (fst (handle_task_send params uuid4 m))) = Ok copy
    ∧ task_history copy = [param_message params]
    ∧ task_sessionId copy = Some (py_or (param_sessionId params) uuid4).
Proof.
  intros Hroute Hst.
  destruct (accept_message_accepts params
              (py_or (param_sessionId params) uuid4) m Hst)
    as (m1 & t1 & Hacc & _ & Hl & _).
  destruct (handle_task_send_accepted _ _ _ _ _ _ Hroute Hacc Hl)
    as (m2 & Hsend & Htasks2 & _).
  destruct (accepted_task_shape _ _ _ _ _ Hacc) as [Hsid Hmsg].
  rewrite Hsend. simpl.
  rewrite <- Htasks2 in Hl. rewrite (handle_task_get_run _ _ _ _ Hl). simpl.
  eexists. split; [reflexivity |]. simpl.
  rewrite bool_decide_eq_false_2 by (intros Hnil; by rewrite Hnil in Hmsg).
  simpl. split; [by apply py_slice_from_minus_one | done].
Qed.

Lemma send_then_get_returns_message_witness :
  ∃ copy,
    snd (handle_task_get "t1" 1
           (fst (handle_task_send Sample.send_again Sample.uuid4
                   (Sample.after_send Sample.echo)))) = Ok copy
    ∧ task_history copy = [Sample.again]
    ∧ task_sessionId copy = Some "s2".
Proof.
  apply (send_then_get_returns_message (Sample.after_send Sample.echo)
           Sample.send_again Sample.uuid4 Sample.echo eq_refl).
  intros task Hstored. vm_compute in Hstored.
  injection Hstored as <-. apply (bool_decide_unpack _). vm_compute. exact I.
Defined.

(** ** The addresses of the client *)

Example address_examples :
  normalized_url "agent.local:8000/" = "http://agent.local:8000"
  ∧ normalized_url "https://agent.local//" = "https://agent.local"
  ∧ target_url "agent.local:8000/" = "http://agent.local:8000"
  ∧ normalized_url "" = "http:"
  ∧ target_url "/" = "http://"
  ∧ normalized_url "http:/" = "http://http:"
  ∧ normalized_url "http://" = "http:".
Proof. by split_and!. Qed.

Lemma append_nil t : "" +:+ t = t.
Proof. reflexivity. Qed.

Lemma append_cons c s t : String c s +:+ t = String c (s +:+ t).
Proof. reflexivity. Qed.

Ltac simpl_append := rewrite ?append_cons, ?append_nil in *.

Lemma rstrip_slash_app_slash s : rstrip_slash (s +:+ "/") = rstrip_slash s.
Proof.
  induction s as [| c s IH]; simpl_append; simpl; [done |]. by rewrite IH.
Qed.

Lemma rstrip_slash_idempotent s : rstrip_slash (rstrip_slash s) = rstrip_slash s.
Proof.
  induction s as [| c s IH]; simpl; [done |].
  destruct (rstrip_slash s) as [| d r] eqn:Hr.
  - destruct (Ascii.eqb c "/") eqn:Hc; simpl; [done |]. by rewrite Hc.
  - simpl in *. by rewrite IH.
Qed.

Lemma rstrip_slash_no_trailing s t : rstrip_slash s ≠ t +:+ "/".
Proof.
  revert t. induction s as [| c s IH]; intros t; simpl.
  - destruct t; simpl_append; discriminate.
  - destruct (rstrip_slash s) as [| d r] eqn:Hr.
    + destruct (Ascii.eqb_spec c "/") as [-> | Hc];
        [destruct t; simpl_append; discriminate |].
      destruct t as [| e t]; simpl_append;
        [by intros [= ?] | intros [= _ H]; destruct t; by simpl_append].
    + destruct t as [| e t]; simpl_append; [discriminate |].
      intros [= -> Ht]. by apply (IH t).
Qed.

Lemma rstrip_slash_app a b :
  rstrip_slash b ≠ "" → rstrip_slash (a +:+ b) = a +:+ rstrip_slash b.
Proof.
  intros Hb. induction a as [| c a IH]; simpl_append; [done |]. simpl.
  rewrite IH. destruct (a +:+ rstrip_slash b) eqn:Hab; [| done].
  destruct a; simpl_append; [done | discriminate].
Qed.

Lemma prefix_app_same p t : String.prefix p (p +:+ t) = true.
Proof.
  induction p as [| c p IH]; simpl; [by destruct t |].
  by destruct (ascii_dec c c).
Qed.

Lemma prefix_app_more p u v :
  String.prefix p u = true → String.prefix p (u +:+ v) = true.
Proof.
  revert u. induction p as [| c p IH]; intros u; simpl.
  - by destruct (u +:+ v).
  - destruct u as [| d u]; simpl; [done |].
    destruct (ascii_dec c d); [apply IH | done].
Qed.

Lemma prefix_app_last p u c :
  String.prefix p (u +:+ String c "") = true →
  String.prefix p u = true ∨ p = u +:+ String c "".
Proof.
  revert u. induction p as [| a p IH]; intros u; simpl.
  - left. by destruct u.
  - destruct u as [| b u]; simpl.
    + destruct (ascii_dec a c) as [-> |]; [| done].
      destruct p; [by right | done].
    + destruct (ascii_dec a b) as [-> |]; [| done].
      intros H. destruct (IH u H) as [? | ->]; [by left | by right].
Qed.

Lemma string_snoc_inj u v c :
  u +:+ String c "" = v +:+ String c "" → u = v.
Proof.
  revert v. induction u as [| a u IH]; intros [| b v]; simpl; try done.
  - intros [= _ H]. by destruct v.
  - intros [= _ H]. by destruct u.
  - intros [= -> H]. f_equal. by apply IH.
Qed.

Lemma has_scheme_app_slash u :
  u ≠ "http:/" → u ≠ "https:/" → has_scheme (u +:+ "/") = has_scheme u.
Proof.
  intros H1 H2. unfold has_scheme.
  destruct (String.prefix "http://" u) eqn:Hp1.
  { by rewrite (prefix_app_more _ _ "/" Hp1). }
  destruct (String.prefix "https://" u) eqn:Hp2.
  { rewrite (prefix_app_more _ _ "/" Hp2). by rewrite orb_true_r. }
  destruct (String.prefix "http://" (u +:+ "/")) eqn:Hq1.
  { apply prefix_app_last in Hq1 as [? | Hq1]; [congruence |].
    exfalso. apply H1. by apply (string_snoc_inj _ "http:/" "/"). }
  destruct (String.prefix "https://" (u +:+ "/")) eqn:Hq2; [| done].
  apply prefix_app_last in Hq2 as [? | Hq2]; [congruence |].
  exfalso. apply H2. by apply (string_snoc_inj _ "https:/" "/").
Qed.

Lemma string_app_assoc a b c : (a +:+ b) +:+ c = a +:+ (b +:+ c).
Proof.
  induction a as [| x a IH]; simpl_append; [done |]. by rewrite IH.
Qed.

(** X16.  A trailing slash does not change the key under which the card of
    an agent is cached, and the key never ends with a slash.  The two
    addresses ["http:/"] and ["https:/"] are the exceptions: one more slash
    turns them into a scheme. *)
Theorem trailing_slash_same_key (agent_url : string) :
  agent_url ≠ "http:/" → agent_url ≠ "https:/" →
  normalized_url (agent_url +:+ "/") = normalized_url agent_url
  ∧ ∀ t, normalized_url agent_url ≠ t +:+ "/".
Proof.
  intros H1 H2. split; [| intros t; apply rstrip_slash_no_trailing].
  unfold normalized_url. rewrite (has_scheme_app_slash _ H1 H2).
  destruct (has_scheme agent_url); cbn [negb].
  - apply rstrip_slash_app_slash.
  - rewrite <- string_app_assoc. apply rstrip_slash_app_slash.
Qed.

Lemma trailing_slash_same_key_witness :
  normalized_url ("agent.local:8000" +:+ "/") = normalized_url "agent.local:8000"
  ∧ ∀ t, normalized_url "agent.local:8000" ≠ t +:+ "/".
Proof.
  apply (trailing_slash_same_key "agent.local:8000"); discriminate.
Defined.

(** X17.  [send_task] posts to the address under which it looks the card up:
    for an address that is more than slashes, the key that [discover_agent]
    derives from the target address is the target address itself, and it
    carries a scheme. *)
Theorem target_url_is_cache_key (target_agent_url : string) :
  rstrip_slash target_agent_url ≠ "" →
  normalized_url (target_url target_agent_url) = target_url target_agent_url
  ∧ has_scheme (target_url target_agent_url) = true.
Proof.
  intros Hne.
  assert (Hscheme : has_scheme (target_url target_agent_url) = true).
  { unfold target_url.
    destruct (has_scheme (rstrip_slash target_agent_url)) eqn:Hs; cbn [negb];
      [done |].
    unfold has_scheme.
    by rewrite (prefix_app_same "http://" (rstrip_slash target_agent_url)). }
  split; [| done].
  unfold normalized_url. rewrite Hscheme. cbn [negb].
  unfold target_url.
  destruct (has_scheme (rstrip_slash target_agent_url)); cbn [negb].
  - apply rstrip_slash_idempotent.
  - rewrite rstrip_slash_app by (by rewrite rstrip_slash_idempotent).
    by rewrite rstrip_slash_idempotent.
Qed.

Lemma target_url_is_cache_key_witness :
  normalized_url (target_url "agent.local:8000//")
  = target_url "agent.local:8000//"
  ∧ has_scheme (target_url "agent.local:8000//") = true.
Proof. apply (target_url_is_cache_key "agent.local:8000//"). discriminate. Defined.

(** ** The client: discovery *)

(** X18.  A card that has been discovered is cached under the normalized
    address: the cache keeps what it held, and every later discovery of an
    address with the same normalized form returns the same card and leaves
    the cache as it is, whatever the network would answer then. *)
Theorem discovery_is_cached
    (http_get http_get' : string → CardReply) (agent_url agent_url' : string)
    (remote_agents remote_agents' : gmap string AgentCard) (card : AgentCard) :
  discover_agent http_get agent_url remote_agents
  = (remote_agents', inl card) →
  normalized_url agent_url' = normalized_url agent_url →
  remote_agents ⊆ remote_agents'
  ∧ remote_agents' !! normalized_url agent_url = Some card
  ∧ discover_agent http_get' agent_url' remote_agents'
    = (remote_agents', inl card).
Proof.
  unfold discover_agent, normalized_url. intros Hd Hk. rewrite Hk.
  destruct (remote_agents !! _) as [cached |] eqn:Hc.
  - simplify_eq. by rewrite Hc.
  - destruct (http_get _); simplify_eq.
    rewrite lookup_insert_eq. split_and!; [| done | done].
    by apply insert_subseteq.
Qed.

Lemma discovery_is_cached_witness :
  let cache : gmap string AgentCard :=
    {["http://agent.local:8000" := ClientSample.remote]} in
  ∅ ⊆ cache
  ∧ cache !! normalized_url "agent.local:8000/" = Some ClientSample.remote
  ∧ discover_agent (λ _, CardRequestError) "http://agent.local:8000//" cache
    = (cache, inl ClientSample.remote).
Proof.
  apply (discovery_is_cached (λ _, CardFound ClientSample.remote)
           (λ _, CardRequestError) "agent.local:8000/"
           "http://agent.local:8000//" ∅).
  - reflexivity.
  - reflexivity.
Defined.

(** A discovery that fails leaves the cache as it was. *)
Lemma discover_agent_failed
    (http_get : string → CardReply) (agent_url : string)
    (remote_agents remote_agents' : gmap string AgentCard) (e : ClientError) :
  discover_agent http_get agent_url remote_agents = (remote_agents', inr e) →
  remote_agents' = remote_agents.
Proof.
  unfold discover_agent. intros Hd.
  destruct (remote_agents !! _); [by simplify_eq |].
  destruct (http_get _); by simplify_eq.
Qed.

(** ** The client: event streams *)

Lemma consume_delivered (lines : list SseLine) (st : StreamState) :
  ∃ ds, delivered (consume lines st).1 = delivered st ++ ds
        ∧ ∀ i arg, ds !! i = Some arg → stops arg = true → S i = length ds.
Proof.
  revert st. induction lines as [| line lines IH]; intros st.
  - exists []. split; [by rewrite app_nil_r | done].
  - destruct line as [| err | ev | ev | e]; simpl.
    + apply IH.
    + exists [GotA2AError err]. split; [done |].
      intros [| i] arg Hl; by simplify_eq/=.
    + destruct (status_event_final ev) eqn:Hf.
      * exists [GotStatus ev]. split; [done |].
        intros [| i] arg Hl; by simplify_eq/=.
      * destruct (IH {| last_known_task_state := Some (status_event_status ev);
                        stream_exc := stream_exc st;
                        delivered := delivered st ++ [GotStatus ev] |})
          as (ds & Hd & Hstop).
        exists (GotStatus ev :: ds). split.
        { rewrite Hd. simpl. by rewrite <- app_assoc. }
        intros [| i] arg Hl Hs; simpl in *.
        -- simplify_eq. simpl in Hs. congruence.
        -- f_equal. by eapply Hstop.
    + destruct (IH {| last_known_task_state := last_known_task_state st;
                      stream_exc := stream_exc st;
                      delivered := delivered st ++ [GotArtifact ev] |})
        as (ds & Hd & Hstop).
      exists (GotArtifact ev :: ds). split.
      { rewrite Hd. simpl. by rewrite <- app_assoc. }
      intros [| i] arg Hl Hs; simpl in *.
      * by simplify_eq.
      * f_equal. by eapply Hstop.
    + exists [GotException e]. split; [done |].
      intros [| i] arg Hl; by simplify_eq/=.
Qed.

(** X19.  Whatever the network does, the callback of [send_task] receives
    nothing after an error, an exception or a final status: such a delivery
    is the last one. *)
Theorem nothing_delivered_after_stop
    (raises_for_status : Z → bool) (net : Network) (target_agent_url : string)
    (params : A2ATaskSendParams) (has_callback : bool)
    (remote_agents : gmap string AgentCard) (i : nat) (arg : CallbackArg) :
  let got :=
    (send_task raises_for_status net target_agent_url params has_callback
       remote_agents).2 in
  got !! i = Some arg → stops arg = true → S i = length got.
Proof.
  unfold send_task.
  destruct (discover_agent _ _ _) as [cache [card | e]]; [| done].
  destruct (negb _); [done |].
  destruct (net_stream _ _) as [lines ending].
  destruct ending; [| done | done].
  destruct (consume_delivered lines stream_start) as (ds & Hd & Hstop).
  destruct (consume lines stream_start) as [st left_by_break].
  simpl in *. rewrite Hd. apply Hstop.
Qed.

Lemma nothing_delivered_after_stop_witness :
  let got :=
    (send_task ClientSample.raises_for_status
       (ClientSample.network
          [SseStatus ClientSample.progress; SseSkipped;
           SseArtifact ClientSample.piece; SseStatus ClientSample.finished;
           SseArtifact ClientSample.piece]
          StreamClosed HttpRequestError)
       "agent.local:8000/" Sample.send_hello true ∅).2 in
  got !! 2%nat = Some (GotStatus ClientSample.finished)
  ∧ S 2 = length got.
Proof.
  split; [reflexivity |].
  apply (nothing_delivered_after_stop ClientSample.raises_for_status
           (ClientSample.network
              [SseStatus ClientSample.progress; SseSkipped;
               SseArtifact ClientSample.piece; SseStatus ClientSample.finished;
               SseArtifact ClientSample.piece]
              StreamClosed HttpRequestError)
           "agent.local:8000/" Sample.send_hello true ∅ 2
           (GotStatus ClientSample.finished)).
  - reflexivity.
  - reflexivity.
Defined.

Lemma consume_until_break
    (pre : list SseLine) (line : SseLine) (post : list SseLine)
    (st : StreamState) :
  Forall (λ l, breaks l = false) pre → breaks line = true →
  ∃ st', consume (pre ++ line :: post) st = (st', true)
         ∧ delivered st' = delivered st ++ omap delivery (pre ++ [line])
         ∧ match line with
           | SseStatus ev =>
               stream_exc st' = stream_exc st
               ∧ last_known_task_state st' = Some (status_event_status ev)
           | SseError err => stream_exc st' = Some (inl err)
           | SseFault e => stream_exc st' = Some (inr e)
           | SseSkipped | SseArtifact _ => False
           end.
Proof.
  intros Hpre Hline. revert st.
  induction Hpre as [| l pre Hl Hpre IH]; intros st.
  - destruct line as [| err | ev | ev | e]; simpl in *;
      [discriminate | | | discriminate |].
    + by eexists.
    + rewrite Hline. by eexists.
    + by eexists.
  - destruct l as [| err | ev | ev | e]; simpl in *;
      [apply IH | discriminate | | | discriminate].
    + rewrite Hl.
      destruct (IH {| last_known_task_state := Some (status_event_status ev);
                      stream_exc := stream_exc st;
                      delivered := delivered st ++ [GotStatus ev] |})
        as (st' & -> & Hd & Hrest).
      exists st'. split_and!; [done | | done].
      rewrite Hd. simpl. by rewrite <- app_assoc.
    + destruct (IH {| last_known_task_state := last_known_task_state st;
                      stream_exc := stream_exc st;
                      delivered := delivered st ++ [GotArtifact ev] |})
        as (st' & -> & Hd & Hrest).
      exists st'. split_and!; [done | | done].
      rewrite Hd. simpl. by rewrite <- app_assoc.
Qed.

Lemma consume_no_break (lines : list SseLine) (st : StreamState) :
  Forall (λ l, breaks l = false) lines →
  consume lines st
  = ({| last_known_task_state :=
          match last (omap status_of lines) with
          | Some status => Some status
          | None => last_known_task_state st
          end;
        stream_exc := stream_exc st;
        delivered := delivered st ++ omap delivery lines |}, false).
Proof.
  intros Hlines. revert st.
  induction Hlines as [| l lines Hl Hlines IH]; intros st.
  - simpl. rewrite app_nil_r. by destruct st.
  - destruct l as [| err | ev | ev | e]; simpl in *;
      [apply IH | discriminate | | | discriminate].
    + rewrite Hl, IH. simpl. rewrite <- app_assoc, last_cons.
      by destruct (last _).
    + rewrite IH. simpl. by rewrite <- app_assoc.
Qed.

(** X20.  Once the card of the agent says that it streams, a stream is
    only delivered when it has closed: a stream that fails, after whatever
    lines, delivers nothing to the callback and raises.  In a stream that
    has closed, the first line that is an error, an exception or a final
    status decides the call: the callback has received the lines up to that
    one, in order, and nothing of what follows.  After a final status the
    task that is returned is made of the id and the session of the request
    and of that status, with no history and no artifacts, whatever was
    delivered; after an error or an exception the call raises one fixed
    exception, whatever status was known.  No request is posted in either
    case. *)
Theorem stream_decided_at_first_stop
    (raises_for_status : Z → bool) (net : Network) (target_agent_url : string)
    (params : A2ATaskSendParams)
    (remote_agents remote_agents' : gmap string AgentCard) (card : AgentCard)
    (pre : list SseLine) (line : SseLine) (post : list SseLine)
    (ending : StreamEnd) :
  discover_agent (net_get_card net) (target_url target_agent_url)
    remote_agents = (remote_agents', inl card) →
  card_streaming card = true →
  net_stream net (target_url target_agent_url)
  = (pre ++ line :: post, ending) →
  Forall (λ l, breaks l = false) pre → breaks line = true →
  send_task raises_for_status net target_agent_url params true remote_agents
  = match ending with
    | StreamClosed =>
        (remote_agents',
         match line with
         | SseStatus ev =>
             inl {| task_id := param_id params;
                    task_sessionId := param_sessionId params;
                    task_status := status_event_status ev;
                    task_history := [];
                    task_artifacts := [];
                    task_metadata := None |}
         | _ => inr (APIAException "A2A stream ended with error")
         end,
         omap delivery (pre ++ [line]))
    | StreamRequestError =>
        (remote_agents',
         inr (ConnectionError
                ("Network error during A2A stream request to "
                 +:+ target_url target_agent_url)),
         [])
    | StreamFailure =>
        (remote_agents',
         inr (APIAException
                ("Error during A2A stream request to "
                 +:+ target_url target_agent_url)),
         [])
    end.
Proof.
  intros Hd Hs Hn Hpre Hline. unfold send_task.
  rewrite Hd, Hs, Hn. cbn [negb andb].
  destruct ending; [| done | done].
  destruct (consume_until_break pre line post stream_start Hpre Hline)
    as (st' & -> & Hdel & Hrest).
  rewrite Hdel. simpl.
  destruct line as [| err | ev | ev | e]; try done.
  - by rewrite Hrest.
  - destruct Hrest as [-> ->]. done.
  - by rewrite Hrest.
Qed.

Lemma stream_decided_at_first_stop_witness :
  send_task ClientSample.raises_for_status
    (ClientSample.network
       [SseStatus ClientSample.progress; SseArtifact ClientSample.piece;
        SseStatus ClientSample.finished; SseArtifact ClientSample.piece]
       StreamClosed HttpRequestError)
    "agent.local:8000/" Sample.send_hello true ∅
  = ({["http://agent.local:8000" := ClientSample.remote]},
     inl {| task_id := "t1";
            task_sessionId := None;
            task_status :=
              {| state := "completed"; message := None;
                 timestamp := when_built |};
            task_history := [];
            task_artifacts := [];
            task_metadata := None |},
     [GotStatus ClientSample.progress; GotArtifact ClientSample.piece;
      GotStatus ClientSample.finished])
  ∧ send_task ClientSample.raises_for_status
      (ClientSample.network
         [SseStatus ClientSample.progress; SseArtifact ClientSample.piece;
          SseStatus ClientSample.finished; SseArtifact ClientSample.piece]
         StreamFailure HttpRequestError)
      "agent.local:8000/" Sample.send_hello true ∅
    = ({["http://agent.local:8000" := ClientSample.remote]},
       inr (APIAException
              "Error during A2A stream request to http://agent.local:8000"),
       []).
Proof.
  split.
  - apply (stream_decided_at_first_stop ClientSample.raises_for_status
             (ClientSample.network
                [SseStatus ClientSample.progress;
                 SseArtifact ClientSample.piece;
                 SseStatus ClientSample.finished;
                 SseArtifact ClientSample.piece]
                StreamClosed HttpRequestError)
             "agent.local:8000/" Sample.send_hello ∅
             {["http://agent.local:8000" := ClientSample.remote]}
             ClientSample.remote
             [SseStatus ClientSample.progress; SseArtifact ClientSample.piece]
             (SseStatus ClientSample.finished)
             [SseArtifact ClientSample.piece] StreamClosed).
    + reflexivity.
    + reflexivity.
    + reflexivity.
    + repeat constructor.
    + reflexivity.
  - apply (stream_decided_at_first_stop ClientSample.raises_for_status
             (ClientSample.network
                [SseStatus ClientSample.progress;
                 SseArtifact ClientSample.piece;
                 SseStatus ClientSample.finished;
                 SseArtifact ClientSample.piece]
                StreamFailure HttpRequestError)
             "agent.local:8000/" Sample.send_hello ∅
             {["http://agent.local:8000" := ClientSample.remote]}
             ClientSample.remote
             [SseStatus ClientSample.progress; SseArtifact ClientSample.piece]
             (SseStatus ClientSample.finished)
             [SseArtifact ClientSample.piece] StreamFailure).
    + reflexivity.
    + reflexivity.
    + reflexivity.
    + repeat constructor.
    + reflexivity.
Defined.

(** X21.  A stream that closes without an error, an exception or a final
    status has delivered every line to the callback.  When a status was seen
    the call returns a task with the last one, which is not final, and asks
    the agent nothing more; when none was seen it asks for the task with
    tasks/get at the same address, and every failure of that request is
    raised as one exception that names the task. *)
Theorem stream_closed_without_stop
    (raises_for_status : Z → bool) (net : Network) (target_agent_url : string)
    (params : A2ATaskSendParams)
    (remote_agents remote_agents' : gmap string AgentCard) (card : AgentCard)
    (lines : list SseLine) :
  discover_agent (net_get_card net) (target_url target_agent_url)
    remote_agents = (remote_agents', inl card) →
  card_streaming card = true →
  net_stream net (target_url target_agent_url) = (lines, StreamClosed) →
  Forall (λ l, breaks l = false) lines →
  send_task raises_for_status net target_agent_url params true remote_agents
  = (remote_agents',
     match last (omap status_of lines) with
     | Some status =>
         inl {| task_id := param_id params;
                task_sessionId := param_sessionId params;
                task_status := status;
                task_history := [];
                task_artifacts := [];
                task_metadata := None |}
     | None =>
         match _send_json_rpc raises_for_status net
                 (target_url target_agent_url) "tasks/get" (param_id params)
         with
         | inl (Some task) => inl task
         | _ =>
             inr (APIAException
                    ("Stream incomplete and failed to fetch final "
                     +:+ "status for task " +:+ param_id params))
         end
     end,
     omap delivery lines).
Proof.
  intros Hd Hs Hn Hlines. unfold send_task.
  rewrite Hd, Hs, Hn. cbn [negb andb].
  rewrite (consume_no_break lines stream_start Hlines). simpl.
  destruct (last (omap status_of lines)); [done |].
  unfold get_task, task_of_reply.
  by destruct (_send_json_rpc _ _ _ _ _) as [[task |] | e].
Qed.

Lemma stream_closed_without_stop_witness :
  send_task ClientSample.raises_for_status
    (ClientSample.network
       [SseStatus ClientSample.progress; SseArtifact ClientSample.piece]
       StreamClosed HttpRequestError)
    "agent.local:8000/" Sample.send_hello true ∅
  = ({["http://agent.local:8000" := ClientSample.remote]},
     inl {| task_id := "t1";
            task_sessionId := None;
            task_status := {| state := "working"; message := None;
                              timestamp := when_built |};
            task_history := [];
            task_artifacts := [];
            task_metadata := None |},
     [GotStatus ClientSample.progress; GotArtifact ClientSample.piece]).
Proof.
  apply (stream_closed_without_stop ClientSample.raises_for_status
           (ClientSample.network
              [SseStatus ClientSample.progress; SseArtifact ClientSample.piece]
              StreamClosed HttpRequestError)
           "agent.local:8000/" Sample.send_hello ∅
           {["http://agent.local:8000" := ClientSample.remote]}
           ClientSample.remote
           [SseStatus ClientSample.progress; SseArtifact ClientSample.piece]).
  - reflexivity.
  - reflexivity.
  - reflexivity.
  - repeat constructor.
Defined.

(** ** The client against the entry point *)



